(** * sora2api: the CA bundle helper [src/core/ca_bundle.py]

    The module has two functions, [_is_ascii] and
    [ensure_curl_cffi_ca_bundle].  The second one reads and writes the
    process environment and the filesystem, and may raise; it is embedded
    as a function in a state-and-exception monad over an explicit world
    (environment, filesystem, log of the filesystem calls issued).

    Conventions.
    - A Python [str] is a [string] holding its UTF-8 encoding: a code point
      is below 128 exactly when it is encoded as one byte below 128, so
      [s.encode("ascii")] succeeds exactly when every byte is below 128.
    - [bytes] are [list byte].
    - [os.environ] is a [gmap string string].
    - The interpreter and the libraries the module calls ([sys], [certifi],
      [tempfile], [pathlib], [hashlib]) are modelled below, each as far as
      the module uses it.  What [sys.platform], [import certifi],
      [certifi.where()] and [tempfile.gettempdir()] answer is given by a
      [host]; the log records the calls the routine itself makes on
      [pathlib.Path] objects, not what the libraries do inside. *)

From Stdlib Require Import ZArith String Ascii List Bool Lia.
From Stdlib Require Import Strings.Byte.
From stdpp Require Import base option list gmap strings.

Local Open Scope string_scope.
Local Open Scope list_scope.

(** ** Strings *)

Module Str.

(** [all(f(c) for c in s)] *)
Fixpoint all (f : ascii -> bool) (s : string) : bool :=
  match s with
  | EmptyString => true
  | String c s' => f c && all f s'
  end.

(** [s.startswith(p)] *)
Definition startswith (p s : string) : bool := String.prefix p s.

(** [s[:n]] *)
Definition take (n : nat) (s : string) : string := String.substring 0 n s.

(** [sep.join(l)] *)
Fixpoint join (sep : string) (l : list string) : string :=
  match l with
  | [] => ""
  | [x] => x
  | x :: l' => x ++ sep ++ join sep l'
  end.

Definition of_chars (l : list ascii) : string := string_of_list_ascii l.

End Str.

(** ** [hashlib.sha256]: SHA-256 after FIPS 180-4, on 32-bit words held in [Z] *)

Module SHA256.
Local Open Scope Z_scope.

Definition wrap32 (x : Z) : Z := x mod 2 ^ 32.
Definition add32 (x y : Z) : Z := wrap32 (x + y).
Definition not32 (x : Z) : Z := Z.lxor x (2 ^ 32 - 1).
Definition rotr (n x : Z) : Z :=
  Z.lor (Z.shiftr x n) (wrap32 (Z.shiftl x (32 - n))).

Definition Ch (x y z : Z) : Z := Z.lxor (Z.land x y) (Z.land (not32 x) z).
Definition Maj (x y z : Z) : Z :=
  Z.lxor (Z.lxor (Z.land x y) (Z.land x z)) (Z.land y z).
Definition bsig0 (x : Z) : Z := Z.lxor (Z.lxor (rotr 2 x) (rotr 13 x)) (rotr 22 x).
Definition bsig1 (x : Z) : Z := Z.lxor (Z.lxor (rotr 6 x) (rotr 11 x)) (rotr 25 x).
Definition ssig0 (x : Z) : Z := Z.lxor (Z.lxor (rotr 7 x) (rotr 18 x)) (Z.shiftr x 3).
Definition ssig1 (x : Z) : Z := Z.lxor (Z.lxor (rotr 17 x) (rotr 19 x)) (Z.shiftr x 10).

(** The constants are fractional parts of roots of the first primes:
    the initial hash value from the square roots of the first eight, the
    round constants from the cube roots of the first sixty-four. *)
Definition primes64 : list Z :=
  [2; 3; 5; 7; 11; 13; 17; 19; 23; 29; 31; 37; 41; 43; 47; 53;
   59; 61; 67; 71; 73; 79; 83; 89; 97; 101; 103; 107; 109; 113; 127; 131;
   137; 139; 149; 151; 157; 163; 167; 173; 179; 181; 191; 193; 197; 199;
   211; 223; 227; 229; 233; 239; 241; 251; 257; 263; 269; 271; 277; 281;
   283; 293; 307; 311].

(** Integer cube root, one result bit at a time from bit [bits - 1] down. *)
Fixpoint icbrt (bits : nat) (n r : Z) : Z :=
  match bits with
  | O => r
  | S b =>
      let c := r + 2 ^ Z.of_nat b in
      if c * c * c <=? n then icbrt b n c else icbrt b n r
  end.

Definition frac_sqrt32 (p : Z) : Z := wrap32 (Z.sqrt (p * 2 ^ 64)).
Definition frac_cbrt32 (p : Z) : Z := wrap32 (icbrt 36 (p * 2 ^ 96) 0).

Definition H_init : list Z := Eval vm_compute in map frac_sqrt32 (firstn 8 primes64).
Definition K : list Z := Eval vm_compute in map frac_cbrt32 primes64.

(** Padding: the byte 0x80, zero bytes up to 56 modulo 64, then the bit
    length as a 64-bit big-endian integer. *)
Definition be_bytes (n : nat) (x : Z) : list Z :=
  map (fun i => Z.land (Z.shiftr x (8 * Z.of_nat i)) 255) (rev (seq 0 n)).

Definition pad (msg : list Z) : list Z :=
  let len := Z.of_nat (length msg) in
  msg ++ [128] ++ repeat 0 (Z.to_nat ((55 - len) mod 64)) ++ be_bytes 8 (8 * len).

Fixpoint be_words (bs : list Z) : list Z :=
  match bs with
  | a :: b :: c :: d :: rest => (((a * 256 + b) * 256 + c) * 256 + d) :: be_words rest
  | _ => []
  end.

(** Message schedule; the list is kept newest word first while it grows. *)
Fixpoint extend (n : nat) (W : list Z) : list Z :=
  match n with
  | O => W
  | S n' =>
      let w := add32 (add32 (ssig1 (nth 1 W 0)) (nth 6 W 0))
                     (add32 (ssig0 (nth 14 W 0)) (nth 15 W 0)) in
      extend n' (w :: W)
  end.

Definition schedule (block : list Z) : list Z := rev (extend 48 (rev block)).

Record regs := Regs { ra : Z; rb : Z; rc : Z; rd : Z; re : Z; rf : Z; rg : Z; rh : Z }.

Definition round (r : regs) (kw : Z * Z) : regs :=
  let t1 := add32 (add32 (add32 (rh r) (bsig1 (re r))) (Ch (re r) (rf r) (rg r)))
                  (add32 (fst kw) (snd kw)) in
  let t2 := add32 (bsig0 (ra r)) (Maj (ra r) (rb r) (rc r)) in
  Regs (add32 t1 t2) (ra r) (rb r) (rc r) (add32 (rd r) t1) (re r) (rf r) (rg r).

Definition of_list (h : list Z) : regs :=
  Regs (nth 0 h 0) (nth 1 h 0) (nth 2 h 0) (nth 3 h 0)
       (nth 4 h 0) (nth 5 h 0) (nth 6 h 0) (nth 7 h 0).

Definition to_list (r : regs) : list Z :=
  [ra r; rb r; rc r; rd r; re r; rf r; rg r; rh r].

Definition compress (h : list Z) (block : list Z) : list Z :=
  let r := fold_left round (combine K (schedule block)) (of_list h) in
  map (fun p => add32 (fst p) (snd p)) (combine h (to_list r)).

(** Words are absorbed one at a time; a full buffer of sixteen is compressed. *)
Definition absorb (st : list Z * list Z) (w : Z) : list Z * list Z :=
  let buf := snd st ++ [w] in
  if (length buf =? 16)%nat then (compress (fst st) buf, []) else (fst st, buf).

Definition digest_words (data : list byte) : list Z :=
  let msg := map (fun b => Z.of_N (Byte.to_N b)) data in
  fst (fold_left absorb (be_words (pad msg)) (H_init, [])).

(** [.hexdigest()]: lower-case hexadecimal, eight digits per word. *)
Definition hexdigits : list ascii :=
  ["0"; "1"; "2"; "3"; "4"; "5"; "6"; "7"; "8"; "9"; "a"; "b"; "c"; "d"; "e"; "f"]%char.

Definition hexchar (x : Z) : ascii := nth (Z.to_nat (Z.land x 15)) hexdigits "0"%char.

Definition hex_of_word (w : Z) : list ascii :=
  map (fun i => hexchar (Z.shiftr w (4 * Z.of_nat i))) (rev (seq 0 8)).

Definition hexdigest (data : list byte) : string :=
  Str.of_chars (concat (map hex_of_word (digest_words data))).

End SHA256.

(** ** Python outcomes: exceptions, and a state-and-exception monad *)

Inductive pyexc : Type :=
  | KeyError
  | ModuleNotFoundError
  | ImportError
  | RuntimeError
  | FileNotFoundError
  | FileExistsError
  | PermissionError
  | KeyboardInterrupt
  | SystemExit.

(** [isinstance(e, Exception)]: the last two derive from [BaseException] only. *)
Definition isinstance_Exception (e : pyexc) : bool :=
  match e with
  | KeyboardInterrupt | SystemExit => false
  | _ => true
  end.

Inductive outcome (A : Type) : Type :=
  | Return (a : A)
  | Raise (e : pyexc).
Arguments Return {A} a.
Arguments Raise {A} e.

(** ** [pathlib]: pure Windows paths

    A path is what [pathlib] keeps after parsing: the anchor (drive and
    root) and the components below it.  The parser is the part of
    [PureWindowsPath] the module can reach: [/] and [\] both separate,
    empty and [.] components are dropped, a leading [X:\] or a leading
    separator is the anchor.  UNC shares and drive-relative paths are not
    told apart from ordinary components. *)

Record path : Type := MkPath { anchor : string; parts : list string }.

#[global] Instance path_eq_dec : EqDecision path.
Proof. solve_decision. Defined.

#[global] Instance path_countable : Countable path.
Proof.
  apply (inj_countable' (fun p => (anchor p, parts p)) (fun q => MkPath q.1 q.2)).
  intros []; reflexivity.
Defined.

Module Pathlib.

Definition is_sep (c : ascii) : bool := Ascii.eqb c "\" || Ascii.eqb c "/".

Fixpoint split_acc (cur s : string) : list string :=
  match s with
  | EmptyString => [cur]
  | String c s' =>
      if is_sep c then cur :: split_acc "" s' else split_acc (cur ++ String c "") s'
  end.

Definition keep_component (x : string) : bool :=
  negb (String.eqb x "") && negb (String.eqb x ".").

Definition components (s : string) : list string :=
  List.filter keep_component (split_acc "" s).

Definition splitroot (s : string) : string * string :=
  match s with
  | String d (String colon (String c rest)) =>
      if Ascii.eqb colon ":" && is_sep c then (String d ":\", rest)
      else if is_sep d then ("\", String colon (String c rest))
      else ("", s)
  | String c rest => if is_sep c then ("\", rest) else ("", s)
  | EmptyString => ("", "")
  end.

(** [Path(s)] *)
Definition Path (s : string) : path :=
  let (root, rest) := splitroot s in MkPath root (components rest).

(** [p / s]: an anchored right operand replaces the left one. *)
Definition joinpath (p : path) (s : string) : path :=
  let q := Path s in
  if String.eqb (anchor q) "" then MkPath (anchor p) (parts p ++ parts q) else q.

(** [str(p)] *)
Definition str (p : path) : string :=
  match anchor p, parts p with
  | EmptyString, [] => "."
  | a, l => a ++ Str.join "\" l
  end.

(** [p.parent]; the parent of an anchor is the anchor itself. *)
Definition parent (p : path) : path := MkPath (anchor p) (removelast (parts p)).

End Pathlib.

Notation "p // s" := (Pathlib.joinpath p s) (at level 40, left associativity).

(** ** The world: environment, filesystem, and the filesystem calls issued *)

Inductive node : Type :=
  | File (data : list byte)
  | Dir.

Inductive fs_call : Type :=
  | CallExists (p : path)
  | CallMkdir (p : path)
  | CallReadBytes (p : path)
  | CallWriteBytes (p : path) (data : list byte).

Record world : Type := World {
  environ : gmap string string;
  files : gmap path node;
  calls : list fs_call
}.

Definition M (A : Type) : Type := world -> outcome A * world.

Definition ret {A} (a : A) : M A := fun w => (Return a, w).
Definition raise {A} (e : pyexc) : M A := fun w => (Raise e, w).
Definition bind {A B} (m : M A) (k : A -> M B) : M B :=
  fun w =>
    match m w with
    | (Return a, w') => k a w'
    | (Raise e, w') => (Raise e, w')
    end.

Notation "'let*' x ':=' m 'in' k" := (bind m (fun x => k))
  (at level 10, x name, m at level 100, k at level 200).
Notation "m ';;;' k" := (bind m (fun _ => k))
  (at level 100, k at level 200, right associativity).

(** [try: body / except Exception: handler], then [k] on what [body]
    bound.  The handler here ends in [return], so its result is the result
    of the whole.  Only [body] is guarded: what [k] raises is not caught,
    and neither is an exception that does not derive from [Exception]. *)
Definition try_except_Exception {A B} (body : M A) (handler : M B) (k : A -> M B) : M B :=
  fun w =>
    match body w with
    | (Return a, w') => k a w'
    | (Raise e, w') => if isinstance_Exception e then handler w' else (Raise e, w')
    end.

Definition log (c : fs_call) : M unit :=
  fun w => (Return tt, World (environ w) (files w) (calls w ++ [c])).

(** *** [os.environ] *)

Module Environ.

(** [os.environ.get(k)] *)
Definition get (k : string) : M (option string) :=
  fun w => (Return (environ w !! k), w).

(** [os.environ[k]] *)
Definition getitem (k : string) : M string :=
  fun w =>
    match environ w !! k with
    | Some v => (Return v, w)
    | None => (Raise KeyError, w)
    end.

(** [os.environ[k] = v] *)
Definition setitem (k v : string) : M unit :=
  fun w => (Return tt, World (<[k := v]> (environ w)) (files w) (calls w)).

(** [os.environ.setdefault(k, v)] *)
Definition setdefault (k v : string) : M string :=
  fun w =>
    match environ w !! k with
    | Some x => (Return x, w)
    | None => (Return v, World (<[k := v]> (environ w)) (files w) (calls w))
    end.

End Environ.

(** Truth value of a [str | None]: [None] and the empty string are false. *)
Definition truthy (v : option string) : bool :=
  match v with
  | None => false
  | Some s => negb (String.eqb s "")
  end.

(** *** The filesystem behind [pathlib.Path]

    A finite map from paths to entries.  [os.mkdir] fails with
    [FileExistsError] on an existing entry and with [FileNotFoundError]
    when the parent is missing or is not a directory (as Windows reports
    it).  Reading a directory is refused with [PermissionError], again as
    on Windows.  Permissions, disk space and the case-insensitivity of
    Windows names are not modelled. *)

Module Fs.

Definition is_dir (fs : gmap path node) (p : path) : bool :=
  match fs !! p with
  | Some Dir => true
  | _ => false
  end.

(** Each operation gives its outcome and the filesystem it leaves. *)
Definition os_mkdir (fs : gmap path node) (p : path) : outcome unit * gmap path node :=
  match fs !! p with
  | Some _ => (Raise FileExistsError, fs)
  | None =>
      match fs !! Pathlib.parent p with
      | Some Dir => (Return tt, <[p := Dir]> fs)
      | _ => (Raise FileNotFoundError, fs)
      end
  end.

(** [p.mkdir(parents=False, exist_ok=exist_ok)] *)
Definition mkdir_leaf (exist_ok : bool) (fs : gmap path node) (p : path)
  : outcome unit * gmap path node :=
  match os_mkdir fs p with
  | (Return _, fs') => (Return tt, fs')
  | (Raise FileNotFoundError, fs') => (Raise FileNotFoundError, fs')
  | (Raise e, fs') =>
      if negb exist_ok || negb (is_dir fs' p) then (Raise e, fs') else (Return tt, fs')
  end.

(** [p.mkdir(parents=True, exist_ok=True)] for a path with [n]
    components: on [FileNotFoundError] the parent is made first (with
    the same flags) and the directory itself after it; at an anchor
    ([n = 0], where [p.parent == p]) the error is raised again. *)
Fixpoint mkdir_parents (n : nat) (fs : gmap path node) (p : path)
  : outcome unit * gmap path node :=
  match os_mkdir fs p with
  | (Return _, fs') => (Return tt, fs')
  | (Raise FileNotFoundError, fs') =>
      match n with
      | O => (Raise FileNotFoundError, fs')
      | S n' =>
          match mkdir_parents n' fs' (Pathlib.parent p) with
          | (Return _, fs1) => mkdir_leaf true fs1 p
          | (Raise e, fs1) => (Raise e, fs1)
          end
      end
  | (Raise e, fs') => if is_dir fs' p then (Return tt, fs') else (Raise e, fs')
  end.

Definition read (fs : gmap path node) (p : path) : outcome (list byte) :=
  match fs !! p with
  | Some (File data) => Return data
  | Some Dir => Raise PermissionError
  | None => Raise FileNotFoundError
  end.

(** Opening for writing creates or truncates the file; the directory
    that holds it must exist. *)
Definition write (fs : gmap path node) (p : path) (data : list byte)
  : outcome nat * gmap path node :=
  match fs !! p, fs !! Pathlib.parent p with
  | Some Dir, _ => (Raise PermissionError, fs)
  | _, Some Dir => (Return (length data), <[p := File data]> fs)
  | _, _ => (Raise FileNotFoundError, fs)
  end.

End Fs.

Module PathIO.

Definition on_files {A} (f : gmap path node -> outcome A * gmap path node) : M A :=
  fun w => let (r, fs') := f (files w) in (r, World (environ w) fs' (calls w)).

(** [p.exists()] *)
Definition exists_ (p : path) : M bool :=
  log (CallExists p) ;;;
  on_files (fun fs => (Return (bool_decide (is_Some (fs !! p))), fs)).

(** [p.mkdir(parents=True, exist_ok=True)] *)
Definition mkdir_parents_exist_ok (p : path) : M unit :=
  log (CallMkdir p) ;;;
  on_files (fun fs => Fs.mkdir_parents (length (parts p)) fs p).

(** [p.read_bytes()] *)
Definition read_bytes (p : path) : M (list byte) :=
  log (CallReadBytes p) ;;;
  on_files (fun fs => (Fs.read fs p, fs)).

(** [p.write_bytes(data)] *)
Definition write_bytes (p : path) (data : list byte) : M nat :=
  log (CallWriteBytes p data) ;;;
  on_files (fun fs => Fs.write fs p data).

End PathIO.

(** ** The host: what [sys], [certifi] and [tempfile] answer

    [import certifi] either raises or gives the module, whose [where()]
    either raises or returns a path string. *)

Inductive certifi_where : Type :=
  | WhereReturns (src_path : string)
  | WhereRaises (e : pyexc).

Inductive certifi_import : Type :=
  | ImportRaises (e : pyexc)
  | ImportOk (where_ : certifi_where).

Record host : Type := Host {
  sys_platform : string;
  certifi : certifi_import;
  gettempdir : string
}.

Definition import_certifi (h : host) : M certifi_where :=
  match certifi h with
  | ImportRaises e => raise e
  | ImportOk c => ret c
  end.

Definition certifi_where_call (c : certifi_where) : M string :=
  match c with
  | WhereReturns p => ret p
  | WhereRaises e => raise e
  end.

(** ** The module itself *)

(** [_is_ascii(s)]: [s.encode("ascii")] raises [UnicodeEncodeError] at the
    first character above 127. *)
Definition _is_ascii (s : string) : bool :=
  Str.all (fun c => (N_of_ascii c <? 128)%N) s.

(** The pieces of the destination, named for the statements below:
    [f"cacert-{digest}.pem"], the directory and the file. *)
Definition cacert_name (digest : string) : string := "cacert-" ++ digest ++ ".pem".

Definition digest_of (data : list byte) : string := Str.take 12 (SHA256.hexdigest data).

Definition dest_dir_of (h : host) : path :=
  Pathlib.Path (gettempdir h) // "sora2api" // "certs".

Definition dest_of (h : host) (data : list byte) : path :=
  dest_dir_of h // cacert_name (digest_of data).

Definition ensure_curl_cffi_ca_bundle (h : host) : M (option string) :=
  let* override := Environ.get "CURL_CA_BUNDLE" in
  if truthy override then
    let* v := Environ.getitem "CURL_CA_BUNDLE" in ret (Some v)
  else if negb (Str.startswith "win" (sys_platform h)) then
    ret None
  else
    try_except_Exception (import_certifi h) (ret None) (fun certifi =>
      let* src_path := certifi_where_call certifi in
      if _is_ascii src_path then
        ret None
      else
        let src := Pathlib.Path src_path in
        let* src_exists := PathIO.exists_ src in
        if negb src_exists then
          ret None
        else
          let dest_dir := Pathlib.Path (gettempdir h) // "sora2api" // "certs" in
          PathIO.mkdir_parents_exist_ok dest_dir ;;;
          let* data := PathIO.read_bytes src in
          let digest := Str.take 12 (SHA256.hexdigest data) in
          let dest := dest_dir // ("cacert-" ++ digest ++ ".pem") in
          let* dest_exists := PathIO.exists_ dest in
          (if negb dest_exists then
             let* _ := PathIO.write_bytes dest data in ret tt
           else ret tt) ;;;
          Environ.setitem "CURL_CA_BUNDLE" (Pathlib.str dest) ;;;
          let* _ := Environ.setdefault "SSL_CERT_FILE" (Pathlib.str dest) in
          ret (Some (Pathlib.str dest))).

(** The data written by the [write_bytes] calls of a log, in order. *)
Definition writes (cs : list fs_call) : list (path * list byte) :=
  flat_map (fun c => match c with CallWriteBytes p data => [(p, data)] | _ => [] end) cs.

(** ** Scenarios

    Concrete hosts and worlds the statements below are run on.  The source
    bundle sits in a folder with a Chinese name, as in the defect the module
    works around. *)

Module Scenario.

Definition bundle : list byte := list_byte_of_string "-----BEGIN CERTIFICATE-----".
Definition other_bytes : list byte := list_byte_of_string "not a certificate".

Definition src_path : string := "C:\用户\项目\certifi\cacert.pem".
Definition src : path := Pathlib.Path src_path.

(** A Windows host whose temp directory has an ASCII name. *)
Definition windows : host := Host "win32" (ImportOk (WhereReturns src_path)) "C:\Temp".

(** The same host when the user's profile, and so the temp directory, has a
    Chinese name. *)
Definition windows_cn_temp : host :=
  Host "win32" (ImportOk (WhereReturns src_path)) "C:\Users\用户\AppData\Local\Temp".

Definition windows_ascii_src : host :=
  Host "win32" (ImportOk (WhereReturns "C:\Python\Lib\site-packages\certifi\cacert.pem"))
       "C:\Temp".

Definition windows_no_certifi : host := Host "win32" (ImportRaises ModuleNotFoundError) "C:\Temp".

Definition windows_where_fails : host :=
  Host "win32" (ImportOk (WhereRaises RuntimeError)) "C:\Temp".

Definition linux : host := Host "linux" (ImportOk (WhereReturns src_path)) "/tmp".

(** A filesystem holding the bundle and the temp directory. *)
Definition disk : gmap path node :=
  <[src := File bundle]>
    (<[Pathlib.Path "C:\Temp" := Dir]>
       (<[Pathlib.Path "C:\Users\用户\AppData\Local\Temp" := Dir]> ∅)).

(** The same disk where a file with other content already has the
    destination's name. *)
Definition disk_stale : gmap path node :=
  <[dest_of windows bundle := File other_bytes]>
    (<[dest_dir_of windows := Dir]>
       (<[Pathlib.Path "C:\Temp\sora2api" := Dir]> disk)).

Definition fresh : world := World ∅ disk [].
Definition stale : world := World ∅ disk_stale [].
Definition no_bundle : world := World ∅ (<[Pathlib.Path "C:\Temp" := Dir]> ∅) [].
Definition overridden : world := World {["CURL_CA_BUNDLE" := "/etc/ssl/custom.pem"]} disk [].
Definition ssl_set : world := World {["SSL_CERT_FILE" := "D:\certs\corp.pem"]} disk [].

End Scenario.

(** [k] is [p] or a directory above it. *)
Definition ancestor_or_self (k p : path) : Prop :=
  anchor k = anchor p /\ parts k `prefix_of` parts p.

(** ** Further scenarios: disks and hosts at the edges *)

Module Edge.

(** The provider's path names a directory. *)
Definition dir_src : world :=
  World ∅ (<[Scenario.src := Dir]> (<[Pathlib.Path "C:\Temp" := Dir]> ∅)) [].

(** A regular file has the name of the application's directory. *)
Definition blocked : world :=
  World ∅ (<[Pathlib.Path "C:\Temp\sora2api" := File Scenario.other_bytes]> Scenario.disk) [].

(** Another variable is set. *)
Definition with_path : world := World {["PATH" := "C:\Windows"]} Scenario.disk [].

(** The import is interrupted from the keyboard. *)
Definition windows_interrupted : host :=
  Host "win32" (ImportRaises KeyboardInterrupt) "C:\Temp".

End Edge.

(** * Properties *)

(** ** The digest on the FIPS 180 test messages *)

Example sha256_empty :
  SHA256.hexdigest [] =
  "e3b0c44298fc1c149afbf4c8996fb92427ae41e4649b934ca495991b7852b855".
Proof. vm_compute. reflexivity. Qed.

Example sha256_abc :
  SHA256.hexdigest (list_byte_of_string "abc") =
  "ba7816bf8f01cfea414140de5dae2223b00361a396177a9cb410ff61f20015ad".
Proof. vm_compute. reflexivity. Qed.

Example sha256_two_blocks :
  SHA256.hexdigest
    (list_byte_of_string "abcdbcdecdefdefgefghfghighijhijkijkljklmklmnlmnomnopnopq") =
  "248d6a61d20638b8e5c026930c3e6039a33ce45964ff2167f6ecedd419db06c1".
Proof. vm_compute. reflexivity. Qed.

(** ** Strings and digests *)

Lemma append_cons c (a b : string) : (String c a ++ b)%string = String c (a ++ b)%string.
Proof. reflexivity. Qed.

Lemma append_nil_l (b : string) : ("" ++ b)%string = b.
Proof. reflexivity. Qed.

Lemma append_nil_r (s : string) : (s ++ "")%string = s.
Proof.
  induction s as [|c s IH]; [reflexivity|].
  rewrite append_cons, IH. reflexivity.
Qed.

Lemma append_assoc (a b c : string) : ((a ++ b) ++ c)%string = (a ++ (b ++ c))%string.
Proof.
  induction a as [|x a IH]; [reflexivity|].
  rewrite !append_cons, IH. reflexivity.
Qed.

Lemma Str_all_app f (a b : string) :
  Str.all f (a ++ b)%string = Str.all f a && Str.all f b.
Proof.
  induction a as [|c a IH]; [reflexivity|].
  rewrite append_cons. simpl. rewrite IH. apply andb_assoc.
Qed.

Lemma Str_all_take f n (s : string) :
  Str.all f s = true -> Str.all f (Str.take n s) = true.
Proof.
  unfold Str.take. revert n.
  induction s as [|c s IH]; intros [|n] H; simpl in *; try reflexivity.
  apply andb_true_iff in H as [Hc Hs].
  rewrite Hc. simpl. apply IH, Hs.
Qed.

Lemma Str_all_of_chars f l : Str.all f (Str.of_chars l) = forallb f l.
Proof.
  unfold Str.of_chars.
  induction l as [|c l IH]; simpl; [reflexivity|].
  rewrite IH. reflexivity.
Qed.

Lemma hexchar_in x : In (SHA256.hexchar x) SHA256.hexdigits.
Proof.
  unfold SHA256.hexchar.
  destruct (nth_in_or_default (Z.to_nat (Z.land x 15)) SHA256.hexdigits "0"%char)
    as [Hin | ->]; [exact Hin | left; reflexivity].
Qed.

Lemma hex_of_word_in w c : In c (SHA256.hex_of_word w) -> In c SHA256.hexdigits.
Proof.
  unfold SHA256.hex_of_word. intros Hin.
  apply in_map_iff in Hin as (i & <- & _). apply hexchar_in.
Qed.

(** Every character of a digest is one of the sixteen hexadecimal digits. *)
Lemma hexdigest_all f data :
  forallb f SHA256.hexdigits = true -> Str.all f (SHA256.hexdigest data) = true.
Proof.
  intros Hf. unfold SHA256.hexdigest. rewrite Str_all_of_chars.
  apply forallb_forall. intros c Hc.
  apply in_concat in Hc as (l & Hl & Hc).
  apply in_map_iff in Hl as (w & <- & _).
  apply hex_of_word_in in Hc.
  rewrite forallb_forall in Hf. apply Hf, Hc.
Qed.

Lemma digest12_all f data :
  forallb f SHA256.hexdigits = true ->
  Str.all f (Str.take 12 (SHA256.hexdigest data)) = true.
Proof. intros Hf. apply Str_all_take, hexdigest_all, Hf. Qed.

(** ** Paths *)

Lemma split_acc_nosep cur (s : string) :
  Str.all (fun c => negb (Pathlib.is_sep c)) s = true ->
  Pathlib.split_acc cur s = [(cur ++ s)%string].
Proof.
  revert cur. induction s as [|c s IH]; intros cur H; simpl in *.
  - rewrite append_nil_r. reflexivity.
  - apply andb_true_iff in H as [Hc Hs].
    apply negb_true_iff in Hc. rewrite Hc.
    rewrite IH by exact Hs.
    rewrite append_assoc. reflexivity.
Qed.

Lemma Path_cacert_name (x : string) :
  Str.all (fun c => negb (Pathlib.is_sep c)) x = true ->
  Pathlib.Path (cacert_name x) = MkPath "" [cacert_name x].
Proof.
  intros Hx. unfold Pathlib.Path, cacert_name.
  rewrite !append_cons, append_nil_l.
  cbn [Pathlib.splitroot]. change (Ascii.eqb "a" ":" && Pathlib.is_sep "c") with false.
  change (Pathlib.is_sep "c") with false. cbv iota.
  unfold Pathlib.components.
  rewrite split_acc_nosep.
  - reflexivity.
  - simpl. rewrite Str_all_app, Hx. reflexivity.
Qed.

Lemma joinpath_single p name :
  Pathlib.Path name = MkPath "" [name] ->
  p // name = MkPath (anchor p) (parts p ++ [name]).
Proof. intros H. unfold Pathlib.joinpath. rewrite H. reflexivity. Qed.

Lemma parent_joinpath_single p name :
  Pathlib.Path name = MkPath "" [name] -> Pathlib.parent (p // name) = p.
Proof.
  intros H. rewrite (joinpath_single _ _ H).
  unfold Pathlib.parent. simpl. rewrite removelast_last. destruct p; reflexivity.
Qed.

(** ** The filesystem *)

Lemma os_mkdir_mono fs p r fs' : Fs.os_mkdir fs p = (r, fs') -> fs ⊆ fs'.
Proof.
  unfold Fs.os_mkdir. intros H.
  repeat case_match; simplify_eq; try reflexivity.
  by apply insert_subseteq.
Qed.

Lemma mkdir_leaf_mono b fs p r fs' : Fs.mkdir_leaf b fs p = (r, fs') -> fs ⊆ fs'.
Proof.
  unfold Fs.mkdir_leaf. intros H.
  destruct (Fs.os_mkdir fs p) as [r0 fs0] eqn:E. apply os_mkdir_mono in E.
  repeat case_match; simplify_eq; exact E.
Qed.

(** [mkdir] never removes or changes an entry. *)
Lemma mkdir_parents_mono n fs p r fs' : Fs.mkdir_parents n fs p = (r, fs') -> fs ⊆ fs'.
Proof.
  revert fs p r fs'. induction n as [|n IH]; intros fs p r fs' H; simpl in H.
  - destruct (Fs.os_mkdir fs p) as [r0 fs0] eqn:E. apply os_mkdir_mono in E.
    repeat case_match; simplify_eq; exact E.
  - destruct (Fs.os_mkdir fs p) as [r0 fs0] eqn:E. apply os_mkdir_mono in E.
    destruct r0 as [u|e]; [simplify_eq; exact E|].
    destruct (Fs.mkdir_parents n fs0 (Pathlib.parent p)) as [r1 fs1] eqn:E1.
    apply IH in E1.
    destruct e; try (destruct (Fs.is_dir fs0 p); simplify_eq; exact E).
    destruct r1 as [u|e1].
    + apply mkdir_leaf_mono in H. by etrans; [|etrans].
    + simplify_eq. by etrans.
Qed.

Lemma os_mkdir_dir fs p u fs' : Fs.os_mkdir fs p = (Return u, fs') -> fs' !! p = Some Dir.
Proof.
  unfold Fs.os_mkdir. intros H.
  repeat case_match; simplify_eq. apply lookup_insert_eq.
Qed.

Lemma is_dir_true fs p : Fs.is_dir fs p = true -> fs !! p = Some Dir.
Proof. unfold Fs.is_dir. intros H. repeat case_match; simplify_eq; reflexivity. Qed.

Lemma mkdir_leaf_dir fs p u fs' :
  Fs.mkdir_leaf true fs p = (Return u, fs') -> fs' !! p = Some Dir.
Proof.
  unfold Fs.mkdir_leaf. intros H.
  destruct (Fs.os_mkdir fs p) as [[u0|e] fs0] eqn:E.
  - simplify_eq. eapply os_mkdir_dir, E.
  - destruct (Fs.is_dir fs0 p) eqn:D; destruct e; simpl in H; simplify_eq;
      by apply is_dir_true.
Qed.

(** After a successful [mkdir] the path is a directory. *)
Lemma mkdir_parents_dir n fs p u fs' :
  Fs.mkdir_parents n fs p = (Return u, fs') -> fs' !! p = Some Dir.
Proof.
  destruct n as [|n]; intros H; simpl in H.
  - destruct (Fs.os_mkdir fs p) as [[u0|e] fs0] eqn:E.
    + simplify_eq. eapply os_mkdir_dir, E.
    + destruct (Fs.is_dir fs0 p) eqn:D; destruct e; simplify_eq; by apply is_dir_true.
  - destruct (Fs.os_mkdir fs p) as [[u0|e] fs0] eqn:E.
    + simplify_eq. eapply os_mkdir_dir, E.
    + destruct (Fs.mkdir_parents n fs0 (Pathlib.parent p)) as [[u1|e1] fs1] eqn:E1.
      * destruct (Fs.is_dir fs0 p) eqn:D; destruct e; simplify_eq;
          try (by apply is_dir_true); eapply mkdir_leaf_dir, H.
      * destruct (Fs.is_dir fs0 p) eqn:D; destruct e; simplify_eq; by apply is_dir_true.
Qed.

(** On an existing directory [mkdir(parents=True, exist_ok=True)] does nothing. *)
Lemma mkdir_parents_existing n fs p :
  fs !! p = Some Dir -> Fs.mkdir_parents n fs p = (Return tt, fs).
Proof.
  intros H. destruct n; simpl; unfold Fs.os_mkdir; rewrite H; simpl;
    unfold Fs.is_dir; rewrite H; reflexivity.
Qed.

(** ** Running the monad *)

Lemma bind_Return {A B} (m : M A) (k : A -> M B) w a w' :
  m w = (Return a, w') -> bind m k w = k a w'.
Proof. intros H. unfold bind. rewrite H. reflexivity. Qed.

Lemma bind_Raise {A B} (m : M A) (k : A -> M B) w e w' :
  m w = (Raise e, w') -> bind m k w = (Raise e, w').
Proof. intros H. unfold bind. rewrite H. reflexivity. Qed.

Lemma get_run k w : Environ.get k w = (Return (environ w !! k), w).
Proof. reflexivity. Qed.

Lemma setitem_run k v w :
  Environ.setitem k v w = (Return tt, World (<[k := v]> (environ w)) (files w) (calls w)).
Proof. reflexivity. Qed.

Lemma exists_run p w :
  PathIO.exists_ p w =
  (Return (bool_decide (is_Some (files w !! p))),
   World (environ w) (files w) (calls w ++ [CallExists p])).
Proof. reflexivity. Qed.

Lemma mkdir_run p w r fs' :
  Fs.mkdir_parents (length (parts p)) (files w) p = (r, fs') ->
  PathIO.mkdir_parents_exist_ok p w =
  (r, World (environ w) fs' (calls w ++ [CallMkdir p])).
Proof.
  intros H. unfold PathIO.mkdir_parents_exist_ok, bind, log, PathIO.on_files. simpl.
  rewrite H. reflexivity.
Qed.

Lemma read_bytes_run p w r :
  Fs.read (files w) p = r ->
  PathIO.read_bytes p w =
  (r, World (environ w) (files w) (calls w ++ [CallReadBytes p])).
Proof. intros <-. reflexivity. Qed.

Lemma read_file fs p data : fs !! p = Some (File data) -> Fs.read fs p = Return data.
Proof. intros H. unfold Fs.read. rewrite H. reflexivity. Qed.

Lemma write_bytes_run p data w r fs' :
  Fs.write (files w) p data = (r, fs') ->
  PathIO.write_bytes p data w =
  (r, World (environ w) fs' (calls w ++ [CallWriteBytes p data])).
Proof.
  intros H. unfold PathIO.write_bytes, bind, log, PathIO.on_files. simpl.
  rewrite H. reflexivity.
Qed.

Lemma dest_parent h data : Pathlib.parent (dest_of h data) = dest_dir_of h.
Proof.
  unfold dest_of. apply parent_joinpath_single, Path_cacert_name.
  apply digest12_all. reflexivity.
Qed.

Lemma write_fresh fs p data :
  fs !! p = None -> fs !! Pathlib.parent p = Some Dir ->
  Fs.write fs p data = (Return (length data), <[p := File data]> fs).
Proof. intros H1 H2. unfold Fs.write. rewrite H1, H2. reflexivity. Qed.

Section Relocation.
Variables (h : host) (w : world) (src_path : string) (data : list byte)
          (fs1 : gmap path node).
Hypothesis Hoverride : truthy (environ w !! "CURL_CA_BUNDLE") = false.
Hypothesis Hplatform : Str.startswith "win" (sys_platform h) = true.
Hypothesis Hcertifi : certifi h = ImportOk (WhereReturns src_path).
Hypothesis Hnonascii : _is_ascii src_path = false.
Hypothesis Hsrc : files w !! Pathlib.Path src_path = Some (File data).
Hypothesis Hmkdir :
  Fs.mkdir_parents (length (parts (dest_dir_of h))) (files w) (dest_dir_of h)
  = (Return tt, fs1).

Local Abbreviation src := (Pathlib.Path src_path).
Local Abbreviation dest := (dest_of h data).
Local Abbreviation d := (Pathlib.str (dest_of h data)).

Lemma relocation_run :
  ensure_curl_cffi_ca_bundle h w =
  (Return (Some d),
   World
     (match environ w !! "SSL_CERT_FILE" with
      | Some _ => <["CURL_CA_BUNDLE" := d]> (environ w)
      | None => <["SSL_CERT_FILE" := d]> (<["CURL_CA_BUNDLE" := d]> (environ w))
      end)
     (match fs1 !! dest with
      | Some _ => fs1
      | None => <[dest := File data]> fs1
      end)
     (calls w ++
      [CallExists src; CallMkdir (dest_dir_of h); CallReadBytes src; CallExists dest] ++
      match fs1 !! dest with
      | Some _ => []
      | None => [CallWriteBytes dest data]
      end)).
Proof.
  assert (Hsrc1 : fs1 !! src = Some (File data)).
  { eapply lookup_weaken; [exact Hsrc|]. eapply mkdir_parents_mono, Hmkdir. }
  assert (Hdir1 : fs1 !! dest_dir_of h = Some Dir).
  { eapply mkdir_parents_dir, Hmkdir. }
  unfold ensure_curl_cffi_ca_bundle.
  rewrite (bind_Return _ _ _ _ _ (get_run _ _)).
  rewrite Hoverride, Hplatform. cbv [negb].
  unfold try_except_Exception, import_certifi. rewrite Hcertifi.
  cbv [ret certifi_where_call].
  rewrite (bind_Return _ _ w src_path w eq_refl).
  rewrite Hnonascii.
  rewrite (bind_Return _ _ _ _ _ (exists_run _ _)).
  rewrite Hsrc. rewrite bool_decide_eq_true_2 by eauto. cbv [negb].
  fold (dest_dir_of h).
  rewrite (bind_Return _ _ _ _ _ (mkdir_run _ (World _ (files w) _) _ _ Hmkdir)).
  rewrite (bind_Return _ _ _ _ _
             (read_bytes_run _ (World _ fs1 _) _ (read_file _ _ _ Hsrc1))).
  cbn [files environ calls].
  fold (digest_of data). fold (cacert_name (digest_of data)). fold (dest_of h data).
  rewrite (bind_Return _ _ _ _ _ (exists_run _ _)). cbn [files environ calls].
  destruct (fs1 !! dest) as [n|] eqn:Hdest.
  - rewrite bool_decide_eq_true_2 by eauto. cbv [negb].
    rewrite (bind_Return _ _ _ _ _ eq_refl).
    rewrite (bind_Return _ _ _ _ _ (setitem_run _ _ _)). cbn [files environ calls].
    unfold bind, Environ.setdefault, ret. cbn [files environ calls].
    rewrite lookup_insert_ne by discriminate.
    rewrite <- !app_assoc. simpl.
    destruct (environ w !! "SSL_CERT_FILE"); reflexivity.
  - rewrite bool_decide_eq_false_2 by (intros [? ?]; discriminate). cbv [negb].
    assert (Hw : Fs.write fs1 dest data = (Return (length data), <[dest := File data]> fs1)).
    { apply write_fresh; [exact Hdest|]. rewrite dest_parent. exact Hdir1. }
    rewrite (bind_Return _ _ _ tt _
               (bind_Return _ _ _ _ _ (write_bytes_run _ _ (World _ fs1 _) _ _ Hw))).
    rewrite (bind_Return _ _ _ _ _ (setitem_run _ _ _)). cbn [files environ calls].
    unfold bind, Environ.setdefault, ret. cbn [files environ calls].
    rewrite lookup_insert_ne by discriminate.
    rewrite <- !app_assoc. simpl.
    destruct (environ w !! "SSL_CERT_FILE"); reflexivity.
Qed.
End Relocation.

(** ** The early exits *)

Lemma truthy_true o : truthy o = true -> exists v, o = Some v /\ v <> "".
Proof.
  destruct o as [v|]; simpl; [|discriminate].
  intros H. exists v. split; [reflexivity|].
  intros ->. discriminate.
Qed.

Lemma truthy_Some v : v <> "" -> truthy (Some v) = true.
Proof.
  intros H. simpl. apply negb_true_iff, String.eqb_neq, H.
Qed.

Lemma override_run h w v :
  environ w !! "CURL_CA_BUNDLE" = Some v -> v <> "" ->
  ensure_curl_cffi_ca_bundle h w = (Return (Some v), w).
Proof.
  intros Hv Hne. unfold ensure_curl_cffi_ca_bundle.
  rewrite (bind_Return _ _ _ _ _ (get_run _ _)).
  rewrite Hv, (truthy_Some _ Hne).
  unfold bind, Environ.getitem. rewrite Hv. reflexivity.
Qed.

Lemma platform_run h w :
  truthy (environ w !! "CURL_CA_BUNDLE") = false ->
  Str.startswith "win" (sys_platform h) = false ->
  ensure_curl_cffi_ca_bundle h w = (Return None, w).
Proof.
  intros Hov Hpl. unfold ensure_curl_cffi_ca_bundle.
  rewrite (bind_Return _ _ _ _ _ (get_run _ _)).
  rewrite Hov, Hpl. reflexivity.
Qed.

(** Past the two guards the routine is the guarded import and what follows it. *)
Lemma guards_passed h w :
  truthy (environ w !! "CURL_CA_BUNDLE") = false ->
  Str.startswith "win" (sys_platform h) = true ->
  ensure_curl_cffi_ca_bundle h w =
  match certifi h with
  | ImportRaises e => if isinstance_Exception e then (Return None, w) else (Raise e, w)
  | ImportOk (WhereRaises e) => (Raise e, w)
  | ImportOk (WhereReturns src_path) =>
      if _is_ascii src_path then (Return None, w)
      else
        let w1 := World (environ w) (files w) (calls w ++ [CallExists (Pathlib.Path src_path)]) in
        match files w !! Pathlib.Path src_path with
        | None => (Return None, w1)
        | Some n =>
            match Fs.mkdir_parents (length (parts (dest_dir_of h))) (files w) (dest_dir_of h) with
            | (Raise e, fs1) =>
                (Raise e,
                 World (environ w) fs1
                   (calls w ++ [CallExists (Pathlib.Path src_path);
                                CallMkdir (dest_dir_of h)]))
            | (Return _, fs1) =>
                match n with
                | Dir =>
                    (Raise PermissionError,
                     World (environ w) fs1
                       (calls w ++ [CallExists (Pathlib.Path src_path);
                                    CallMkdir (dest_dir_of h);
                                    CallReadBytes (Pathlib.Path src_path)]))
                | File data =>
                    let dest := dest_of h data in
                    let d := Pathlib.str dest in
                    (Return (Some d),
                     World
                       (match environ w !! "SSL_CERT_FILE" with
                        | Some _ => <["CURL_CA_BUNDLE" := d]> (environ w)
                        | None =>
                            <["SSL_CERT_FILE" := d]> (<["CURL_CA_BUNDLE" := d]> (environ w))
                        end)
                       (match fs1 !! dest with
                        | Some _ => fs1
                        | None => <[dest := File data]> fs1
                        end)
                       (calls w ++
                        [CallExists (Pathlib.Path src_path); CallMkdir (dest_dir_of h);
                         CallReadBytes (Pathlib.Path src_path); CallExists dest] ++
                        match fs1 !! dest with
                        | Some _ => []
                        | None => [CallWriteBytes dest data]
                        end))
                end
            end
        end
  end.
Proof.
  intros Hov Hpl.
  destruct (certifi h) as [e|[src_path|e]] eqn:Hc.
  - unfold ensure_curl_cffi_ca_bundle.
    rewrite (bind_Return _ _ _ _ _ (get_run _ _)).
    rewrite Hov, Hpl. cbv [negb].
    unfold try_except_Exception, import_certifi. rewrite Hc. reflexivity.
  - destruct (_is_ascii src_path) eqn:Ha;
      [|destruct (files w !! Pathlib.Path src_path) as [n|] eqn:Hs;
        [destruct (Fs.mkdir_parents _ _ _) as [[[]|e] fs1] eqn:Hm;
         [destruct n as [data|]; [exact (relocation_run h w src_path data fs1 Hov Hpl Hc Ha Hs Hm)|]|]|]];
      try reflexivity;
      unfold ensure_curl_cffi_ca_bundle;
      rewrite (bind_Return _ _ _ _ _ (get_run _ _));
      rewrite Hov, Hpl; cbv [negb];
      unfold try_except_Exception, import_certifi; rewrite Hc;
      cbv [ret certifi_where_call];
      rewrite (bind_Return _ _ w src_path w eq_refl);
      rewrite Ha; try reflexivity;
      rewrite (bind_Return _ _ _ _ _ (exists_run _ _));
      rewrite Hs.
    + rewrite bool_decide_eq_true_2 by eauto. cbv [negb]. fold (dest_dir_of h).
      rewrite (bind_Return _ _ _ _ _ (mkdir_run _ (World _ (files w) _) _ _ Hm)).
      assert (Hs1 : fs1 !! Pathlib.Path src_path = Some Dir).
      { eapply lookup_weaken; [exact Hs|]. eapply mkdir_parents_mono, Hm. }
      assert (Hr : Fs.read fs1 (Pathlib.Path src_path) = Raise PermissionError).
      { unfold Fs.read. rewrite Hs1. reflexivity. }
      rewrite (bind_Raise _ _ _ _ _ (read_bytes_run _ (World _ fs1 _) _ Hr)).
      cbn [calls files environ]. rewrite <- !app_assoc. reflexivity.
    + rewrite bool_decide_eq_true_2 by eauto. cbv [negb]. fold (dest_dir_of h).
      rewrite (bind_Raise _ _ _ _ _ (mkdir_run _ (World _ (files w) _) _ _ Hm)).
      cbn [calls files environ]. rewrite <- !app_assoc. reflexivity.
    + rewrite bool_decide_eq_false_2 by (intros [? ?]; discriminate). reflexivity.
  - unfold ensure_curl_cffi_ca_bundle.
    rewrite (bind_Return _ _ _ _ _ (get_run _ _)).
    rewrite Hov, Hpl. cbv [negb].
    unfold try_except_Exception, import_certifi. rewrite Hc. reflexivity.
Qed.

(** ** The destination *)

Lemma cacert_name_path data :
  Pathlib.Path (cacert_name (digest_of data)) = MkPath "" [cacert_name (digest_of data)].
Proof. apply Path_cacert_name, digest12_all. reflexivity. Qed.

Lemma dest_dir_shape h :
  dest_dir_of h =
  MkPath (anchor (Pathlib.Path (gettempdir h)))
         (parts (Pathlib.Path (gettempdir h)) ++ ["sora2api"; "certs"]).
Proof.
  unfold dest_dir_of.
  rewrite !joinpath_single by reflexivity. cbn [anchor parts].
  rewrite <- app_assoc. reflexivity.
Qed.

Lemma dest_shape h data :
  dest_of h data =
  MkPath (anchor (Pathlib.Path (gettempdir h)))
         (parts (Pathlib.Path (gettempdir h)) ++
          ["sora2api"; "certs"; cacert_name (digest_of data)]).
Proof.
  unfold dest_of. rewrite (joinpath_single _ _ (cacert_name_path data)), dest_dir_shape.
  cbn [anchor parts]. rewrite <- app_assoc. reflexivity.
Qed.

Lemma append_eq_nil (a b : string) : (a ++ b)%string = "" -> b = "".
Proof. destruct a; [intros H; exact H | rewrite append_cons; discriminate]. Qed.

Lemma join_snoc_nonempty sep (l : list string) c (x : string) :
  Str.join sep (l ++ [String c x]) <> "".
Proof.
  induction l as [|y l IH]; [discriminate|].
  change ((y :: l) ++ [String c x]) with (y :: (l ++ [String c x])).
  destruct (l ++ [String c x]) as [|z l'] eqn:E.
  - destruct l; discriminate.
  - change (Str.join sep (y :: z :: l')) with (y ++ sep ++ Str.join sep (z :: l'))%string.
    intros H. apply append_eq_nil, append_eq_nil in H. exact (IH H).
Qed.

(** The destination string is never empty, so it counts as set once it is
    in the environment. *)
Lemma dest_str_nonempty h data : Pathlib.str (dest_of h data) <> "".
Proof.
  rewrite dest_shape. unfold Pathlib.str. cbn [anchor parts].
  set (a := anchor _). set (ps := parts _).
  assert (Hj : Str.join "\" (ps ++ ["sora2api"; "certs"; cacert_name (digest_of data)]) <> "").
  { change (ps ++ ["sora2api"; "certs"; cacert_name (digest_of data)])
      with (ps ++ ["sora2api"; "certs"] ++ [cacert_name (digest_of data)]).
    rewrite app_assoc. apply join_snoc_nonempty. }
  destruct (ps ++ _) as [|y l] eqn:E.
  - destruct ps; discriminate.
  - destruct a; [exact Hj|]. rewrite append_cons. discriminate.
Qed.

Lemma is_ascii_join (l : list string) :
  _is_ascii (Str.join "\" l) = forallb _is_ascii l.
Proof.
  induction l as [|x l IH]; [reflexivity|].
  destruct l as [|y l].
  - simpl. rewrite andb_true_r. reflexivity.
  - change (Str.join "\" (x :: y :: l)) with (x ++ "\" ++ Str.join "\" (y :: l))%string.
    unfold _is_ascii in *. rewrite !Str_all_app, IH. reflexivity.
Qed.

Lemma is_ascii_str p :
  _is_ascii (Pathlib.str p) = _is_ascii (anchor p) && forallb _is_ascii (parts p).
Proof.
  destruct p as [a l]. unfold Pathlib.str. cbn [anchor parts].
  destruct a as [|c a].
  - destruct l as [|x l]; [reflexivity|]. rewrite append_nil_l. apply is_ascii_join.
  - unfold _is_ascii at 1. rewrite Str_all_app. fold (_is_ascii (Str.join "\" l)).
    rewrite is_ascii_join. reflexivity.
Qed.

Lemma cacert_name_ascii data : _is_ascii (cacert_name (digest_of data)) = true.
Proof.
  unfold cacert_name, _is_ascii. rewrite !Str_all_app.
  unfold digest_of. rewrite digest12_all by reflexivity. reflexivity.
Qed.

(** The components the routine adds are ASCII, so the destination is
    ASCII-only exactly when the temp directory is. *)
Lemma dest_ascii_iff_tempdir h data :
  _is_ascii (Pathlib.str (dest_of h data)) =
  _is_ascii (Pathlib.str (Pathlib.Path (gettempdir h))).
Proof.
  rewrite !is_ascii_str, dest_shape. cbn [anchor parts].
  rewrite forallb_app. cbn [forallb]. rewrite cacert_name_ascii.
  change (_is_ascii "sora2api") with true. change (_is_ascii "certs") with true.
  rewrite !andb_true_r. reflexivity.
Qed.

Lemma mkdir_parents_S n fs p :
  Fs.mkdir_parents (S n) fs p =
  match Fs.os_mkdir fs p with
  | (Return _, fs') => (Return tt, fs')
  | (Raise FileNotFoundError, fs') =>
      match Fs.mkdir_parents n fs' (Pathlib.parent p) with
      | (Return _, fs1) => Fs.mkdir_leaf true fs1 p
      | (Raise e, fs1) => (Raise e, fs1)
      end
  | (Raise e, fs') => if Fs.is_dir fs' p then (Return tt, fs') else (Raise e, fs')
  end.
Proof. reflexivity. Qed.

(** When the temp directory exists and nothing but directories is in the
    way, [mkdir] on the destination directory succeeds: the precondition of
    the relocation statements is met on every ordinary disk. *)
Lemma mkdir_dest_dir_succeeds (h : host) (fs : gmap path node) :
  fs !! Pathlib.Path (gettempdir h) = Some Dir ->
  Fs.is_dir fs (Pathlib.Path (gettempdir h) // "sora2api")
    || bool_decide (fs !! (Pathlib.Path (gettempdir h) // "sora2api") = None) = true ->
  Fs.is_dir fs (dest_dir_of h) || bool_decide (fs !! dest_dir_of h = None) = true ->
  exists fs1,
    Fs.mkdir_parents (length (parts (dest_dir_of h))) fs (dest_dir_of h) = (Return tt, fs1).
Proof.
  intros Ht Ha Hd.
  set (T := Pathlib.Path (gettempdir h)) in *.
  set (A := T // "sora2api") in *.
  assert (HpA : Pathlib.parent A = T) by (apply parent_joinpath_single; reflexivity).
  assert (HpD : Pathlib.parent (dest_dir_of h) = A)
    by (apply parent_joinpath_single; reflexivity).
  assert (Hlen : length (parts (dest_dir_of h)) = S (S (length (parts T)))).
  { rewrite dest_dir_shape. cbn [parts]. rewrite length_app. simpl. fold T. lia. }
  rewrite Hlen.
  apply orb_true_iff in Hd as [Hd|Hd].
  { exists fs. apply mkdir_parents_existing, is_dir_true, Hd. }
  apply bool_decide_eq_true_1 in Hd.
  apply orb_true_iff in Ha as [Ha|Ha].
  { apply is_dir_true in Ha. eexists. rewrite mkdir_parents_S. unfold Fs.os_mkdir.
    rewrite Hd, HpD, Ha. reflexivity. }
  apply bool_decide_eq_true_1 in Ha.
  rewrite mkdir_parents_S. unfold Fs.os_mkdir at 1. rewrite Hd, HpD, Ha.
  assert (HmA : Fs.mkdir_parents (S (length (parts T))) fs A = (Return tt, <[A := Dir]> fs)).
  { rewrite mkdir_parents_S. unfold Fs.os_mkdir at 1. rewrite Ha, HpA, Ht. reflexivity. }
  rewrite HmA. unfold Fs.mkdir_leaf, Fs.os_mkdir.
  destruct (decide (A = dest_dir_of h)) as [E|E].
  - rewrite <- E, lookup_insert_eq. simpl. unfold Fs.is_dir.
    rewrite lookup_insert_eq. eauto.
  - rewrite lookup_insert_ne, Hd, HpD, lookup_insert_eq by exact E. eauto.
Qed.

Example mkdir_dest_dir_on_fresh_disk :
  exists fs1,
    Fs.mkdir_parents (length (parts (dest_dir_of Scenario.windows)))
      Scenario.disk (dest_dir_of Scenario.windows) = (Return tt, fs1).
Proof. apply mkdir_dest_dir_succeeds; reflexivity. Qed.

(** * The claims *)

(** C2. If [CURL_CA_BUNDLE] is already set to a non-empty value, the routine
    returns exactly that value and leaves the world as it was: no
    filesystem call is issued and no environment variable changes, whatever
    the platform, the provider and the source path are. *)
Theorem override_is_returned_untouched (h : host) (w : world) (v : string) :
  environ w !! "CURL_CA_BUNDLE" = Some v -> v <> "" ->
  ensure_curl_cffi_ca_bundle h w = (Return (Some v), w).
Proof. apply override_run. Qed.

Lemma override_is_returned_untouched_witness :
  environ Scenario.overridden !! "CURL_CA_BUNDLE" = Some "/etc/ssl/custom.pem" /\
  "/etc/ssl/custom.pem" <> "" /\
  ensure_curl_cffi_ca_bundle Scenario.windows Scenario.overridden =
  (Return (Some "/etc/ssl/custom.pem"), Scenario.overridden).
Proof.
  split; [reflexivity|]. split; [discriminate|].
  apply (override_is_returned_untouched Scenario.windows Scenario.overridden);
    [reflexivity | discriminate].
Defined.

(** C6. On a platform whose name does not start with [win], with no
    override in force, the routine returns [None] and leaves the world as it
    was: no filesystem call, no environment change, for every provider and
    source path. *)
Theorem unaffected_platform_is_noop (h : host) (w : world) :
  Str.startswith "win" (sys_platform h) = false ->
  truthy (environ w !! "CURL_CA_BUNDLE") = false ->
  ensure_curl_cffi_ca_bundle h w = (Return None, w).
Proof. intros Hpl Hov. apply platform_run; assumption. Qed.

Lemma unaffected_platform_is_noop_witness :
  Str.startswith "win" (sys_platform Scenario.linux) = false /\
  truthy (environ Scenario.fresh !! "CURL_CA_BUNDLE") = false /\
  ensure_curl_cffi_ca_bundle Scenario.linux Scenario.fresh = (Return None, Scenario.fresh).
Proof.
  split; [reflexivity|]. split; [reflexivity|].
  apply (unaffected_platform_is_noop Scenario.linux Scenario.fresh); reflexivity.
Defined.

(** C7. On an affected platform with no override in force, an ASCII-only
    source path makes the routine return [None] and leave the world as it
    was: no filesystem call, no environment change. *)
Theorem ascii_source_is_noop (h : host) (w : world) (src_path : string) :
  Str.startswith "win" (sys_platform h) = true ->
  truthy (environ w !! "CURL_CA_BUNDLE") = false ->
  certifi h = ImportOk (WhereReturns src_path) ->
  _is_ascii src_path = true ->
  ensure_curl_cffi_ca_bundle h w = (Return None, w).
Proof.
  intros Hpl Hov Hc Ha. rewrite (guards_passed h w Hov Hpl), Hc, Ha. reflexivity.
Qed.

Lemma ascii_source_is_noop_witness :
  Str.startswith "win" (sys_platform Scenario.windows_ascii_src) = true /\
  truthy (environ Scenario.fresh !! "CURL_CA_BUNDLE") = false /\
  certifi Scenario.windows_ascii_src =
    ImportOk (WhereReturns "C:\Python\Lib\site-packages\certifi\cacert.pem") /\
  _is_ascii "C:\Python\Lib\site-packages\certifi\cacert.pem" = true /\
  ensure_curl_cffi_ca_bundle Scenario.windows_ascii_src Scenario.fresh =
  (Return None, Scenario.fresh).
Proof.
  repeat (split; [reflexivity|]).
  apply (ascii_source_is_noop Scenario.windows_ascii_src Scenario.fresh
           "C:\Python\Lib\site-packages\certifi\cacert.pem"); reflexivity.
Defined.

(** C8, as the code has it.  On an affected platform with no override in
    force, when nothing exists at the non-ASCII source path ([src.exists()]
    is false), the routine returns [None]; the one filesystem call it issued
    is the existence test, so no directory is created, no file is written
    and no environment variable changes. *)
Theorem missing_source_is_noop (h : host) (w : world) (src_path : string) :
  Str.startswith "win" (sys_platform h) = true ->
  truthy (environ w !! "CURL_CA_BUNDLE") = false ->
  certifi h = ImportOk (WhereReturns src_path) ->
  _is_ascii src_path = false ->
  files w !! Pathlib.Path src_path = None ->
  ensure_curl_cffi_ca_bundle h w =
  (Return None,
   World (environ w) (files w) (calls w ++ [CallExists (Pathlib.Path src_path)])).
Proof.
  intros Hpl Hov Hc Ha Hs. rewrite (guards_passed h w Hov Hpl), Hc, Ha, Hs. reflexivity.
Qed.

Lemma missing_source_is_noop_witness :
  Str.startswith "win" (sys_platform Scenario.windows) = true /\
  truthy (environ Scenario.no_bundle !! "CURL_CA_BUNDLE") = false /\
  certifi Scenario.windows = ImportOk (WhereReturns Scenario.src_path) /\
  _is_ascii Scenario.src_path = false /\
  files Scenario.no_bundle !! Pathlib.Path Scenario.src_path = None /\
  ensure_curl_cffi_ca_bundle Scenario.windows Scenario.no_bundle =
  (Return None,
   World (environ Scenario.no_bundle) (files Scenario.no_bundle)
     (calls Scenario.no_bundle ++ [CallExists (Pathlib.Path Scenario.src_path)])).
Proof.
  repeat (split; [reflexivity|]).
  apply (missing_source_is_noop Scenario.windows Scenario.no_bundle Scenario.src_path);
    reflexivity.
Defined.

(** C8, as stated, fails: a source path that names a directory does not
    refer to an existing file, yet the existence test lets it through, the
    destination directory is created and [read_bytes] raises. *)
Lemma directory_source_is_not_a_noop :
  Str.startswith "win" (sys_platform Scenario.windows) = true /\
  truthy (environ Edge.dir_src !! "CURL_CA_BUNDLE") = false /\
  certifi Scenario.windows = ImportOk (WhereReturns Scenario.src_path) /\
  _is_ascii Scenario.src_path = false /\
  files Edge.dir_src !! Pathlib.Path Scenario.src_path = Some Dir /\
  (forall data, files Edge.dir_src !! Pathlib.Path Scenario.src_path <> Some (File data)) /\
  fst (ensure_curl_cffi_ca_bundle Scenario.windows Edge.dir_src) = Raise PermissionError /\
  fst (ensure_curl_cffi_ca_bundle Scenario.windows Edge.dir_src) <> Return None /\
  files Edge.dir_src !! dest_dir_of Scenario.windows = None /\
  files (snd (ensure_curl_cffi_ca_bundle Scenario.windows Edge.dir_src))
    !! dest_dir_of Scenario.windows = Some Dir.
Proof.
  vm_compute. repeat split; try reflexivity; intros; discriminate.
Qed.

(** C4, as the code has it.  With no override in force, when [import
    certifi] raises an [Exception] (the provider is not installed or cannot
    be imported), the routine returns [None] and leaves the world as it was;
    nothing is propagated.  An error raised by [certifi.where()] is outside
    the guarded import and is not covered. *)
Theorem import_failure_is_no_action (h : host) (w : world) (e : pyexc) :
  truthy (environ w !! "CURL_CA_BUNDLE") = false ->
  certifi h = ImportRaises e ->
  isinstance_Exception e = true ->
  ensure_curl_cffi_ca_bundle h w = (Return None, w).
Proof.
  intros Hov Hc He.
  destruct (Str.startswith "win" (sys_platform h)) eqn:Hpl.
  - rewrite (guards_passed h w Hov Hpl), Hc, He. reflexivity.
  - apply platform_run; assumption.
Qed.

Lemma import_failure_is_no_action_witness :
  truthy (environ Scenario.fresh !! "CURL_CA_BUNDLE") = false /\
  certifi Scenario.windows_no_certifi = ImportRaises ModuleNotFoundError /\
  isinstance_Exception ModuleNotFoundError = true /\
  ensure_curl_cffi_ca_bundle Scenario.windows_no_certifi Scenario.fresh =
  (Return None, Scenario.fresh).
Proof.
  repeat (split; [reflexivity|]).
  apply (import_failure_is_no_action Scenario.windows_no_certifi Scenario.fresh
           ModuleNotFoundError); reflexivity.
Defined.

(** C4, as stated, fails: when the provider is importable and its [where()]
    raises during source-path resolution, the error reaches the caller. *)
Lemma where_failure_propagates :
  truthy (environ Scenario.fresh !! "CURL_CA_BUNDLE") = false /\
  certifi Scenario.windows_where_fails = ImportOk (WhereRaises RuntimeError) /\
  ensure_curl_cffi_ca_bundle Scenario.windows_where_fails Scenario.fresh =
  (Raise RuntimeError, Scenario.fresh) /\
  fst (ensure_curl_cffi_ca_bundle Scenario.windows_where_fails Scenario.fresh)
  <> Return None.
Proof.
  repeat (split; [reflexivity|]). vm_compute. discriminate.
Qed.

(** C5. After a successful relocation [CURL_CA_BUNDLE] holds the
    destination path, whatever it held before; [SSL_CERT_FILE] holds the
    destination path if it was unset, and keeps its value if it was set. *)
Theorem relocation_publishes_destination
  (h : host) (w : world) (src_path : string) (data : list byte) (fs1 : gmap path node) :
  truthy (environ w !! "CURL_CA_BUNDLE") = false ->
  Str.startswith "win" (sys_platform h) = true ->
  certifi h = ImportOk (WhereReturns src_path) ->
  _is_ascii src_path = false ->
  files w !! Pathlib.Path src_path = Some (File data) ->
  Fs.mkdir_parents (length (parts (dest_dir_of h))) (files w) (dest_dir_of h)
    = (Return tt, fs1) ->
  exists w' : world,
    ensure_curl_cffi_ca_bundle h w = (Return (Some (Pathlib.str (dest_of h data))), w') /\
    environ w' !! "CURL_CA_BUNDLE" = Some (Pathlib.str (dest_of h data)) /\
    (environ w !! "SSL_CERT_FILE" = None ->
     environ w' !! "SSL_CERT_FILE" = Some (Pathlib.str (dest_of h data))) /\
    (forall v, environ w !! "SSL_CERT_FILE" = Some v ->
               environ w' !! "SSL_CERT_FILE" = Some v).
Proof.
  intros Hov Hpl Hc Ha Hs Hm.
  eexists. split; [exact (relocation_run h w src_path data fs1 Hov Hpl Hc Ha Hs Hm)|].
  cbn [environ].
  destruct (environ w !! "SSL_CERT_FILE") as [v0|] eqn:Hssl.
  - split; [apply lookup_insert_eq|]. split; [discriminate|].
    intros v Hv. rewrite lookup_insert_ne by discriminate. rewrite Hssl. exact Hv.
  - split; [rewrite lookup_insert_ne by discriminate; apply lookup_insert_eq|].
    split; [intros _; apply lookup_insert_eq | discriminate].
Qed.

Lemma relocation_publishes_destination_witness :
  truthy (environ Scenario.ssl_set !! "CURL_CA_BUNDLE") = false /\
  Str.startswith "win" (sys_platform Scenario.windows) = true /\
  certifi Scenario.windows = ImportOk (WhereReturns Scenario.src_path) /\
  _is_ascii Scenario.src_path = false /\
  files Scenario.ssl_set !! Pathlib.Path Scenario.src_path = Some (File Scenario.bundle) /\
  Fs.mkdir_parents (length (parts (dest_dir_of Scenario.windows)))
    (files Scenario.ssl_set) (dest_dir_of Scenario.windows)
  = (Return tt,
     <[dest_dir_of Scenario.windows := Dir]>
       (<[Pathlib.Path "C:\Temp\sora2api" := Dir]> Scenario.disk)) /\
  exists w' : world,
    ensure_curl_cffi_ca_bundle Scenario.windows Scenario.ssl_set =
    (Return (Some (Pathlib.str (dest_of Scenario.windows Scenario.bundle))), w') /\
    environ w' !! "CURL_CA_BUNDLE" =
      Some (Pathlib.str (dest_of Scenario.windows Scenario.bundle)) /\
    (environ Scenario.ssl_set !! "SSL_CERT_FILE" = None ->
     environ w' !! "SSL_CERT_FILE" =
       Some (Pathlib.str (dest_of Scenario.windows Scenario.bundle))) /\
    (forall v, environ Scenario.ssl_set !! "SSL_CERT_FILE" = Some v ->
               environ w' !! "SSL_CERT_FILE" = Some v).
Proof.
  repeat (split; [reflexivity|]).
  apply (relocation_publishes_destination Scenario.windows Scenario.ssl_set
           Scenario.src_path Scenario.bundle
           (<[dest_dir_of Scenario.windows := Dir]>
              (<[Pathlib.Path "C:\Temp\sora2api" := Dir]> Scenario.disk)));
    reflexivity.
Defined.

(** C9. Whenever the routine returns [None], the environment and the
    filesystem are as they were before the call; and the environment
    changes only in a call that returns a path, which [CURL_CA_BUNDLE] then
    holds. *)
Theorem no_action_leaves_world_untouched
  (h : host) (w : world) (r : outcome (option string)) (w' : world) :
  ensure_curl_cffi_ca_bundle h w = (r, w') ->
  (r = Return None -> environ w' = environ w /\ files w' = files w) /\
  (environ w' <> environ w ->
   exists d, r = Return (Some d) /\ environ w' !! "CURL_CA_BUNDLE" = Some d).
Proof.
  intros Hrun.
  destruct (truthy (environ w !! "CURL_CA_BUNDLE")) eqn:Hov.
  { apply truthy_true in Hov as (v & Hv & Hne).
    rewrite (override_run h w v Hv Hne) in Hrun. simplify_eq.
    split; [discriminate | intros H; destruct H; reflexivity]. }
  destruct (Str.startswith "win" (sys_platform h)) eqn:Hpl.
  2:{ rewrite (platform_run h w Hov Hpl) in Hrun. simplify_eq.
      split; [intros _; split; reflexivity | intros H; destruct H; reflexivity]. }
  rewrite (guards_passed h w Hov Hpl) in Hrun.
  destruct (certifi h) as [e|[src_path|e]];
    [destruct (isinstance_Exception e)
    |destruct (_is_ascii src_path);
      [|destruct (files w !! Pathlib.Path src_path) as [[data|]|];
        [destruct (Fs.mkdir_parents _ _ _) as [[[]|e] fs1]
        |destruct (Fs.mkdir_parents _ _ _) as [[[]|e] fs1]|]]
    |];
    cbv zeta in Hrun; simplify_eq; cbn [environ files];
    try (split; [first [discriminate | intros _; split; reflexivity]
                | intros H; destruct H; reflexivity]).
  split; [discriminate|]. intros _. eexists. split; [reflexivity|].
  destruct (environ w !! "SSL_CERT_FILE").
  - apply lookup_insert_eq.
  - rewrite lookup_insert_ne by discriminate. apply lookup_insert_eq.
Qed.

Lemma no_action_leaves_world_untouched_witness :
  ensure_curl_cffi_ca_bundle Scenario.windows Scenario.no_bundle =
    (Return None,
     World ∅ (files Scenario.no_bundle) [CallExists Scenario.src]) /\
  ((Return None = Return (@None string) ->
    environ (World ∅ (files Scenario.no_bundle) [CallExists Scenario.src])
      = environ Scenario.no_bundle /\
    files (World ∅ (files Scenario.no_bundle) [CallExists Scenario.src])
      = files Scenario.no_bundle) /\
   (environ (World ∅ (files Scenario.no_bundle) [CallExists Scenario.src])
      <> environ Scenario.no_bundle ->
    exists d, Return None = Return (Some d) /\
              environ (World ∅ (files Scenario.no_bundle) [CallExists Scenario.src])
                !! "CURL_CA_BUNDLE" = Some d)).
Proof.
  split; [reflexivity|].
  apply (no_action_leaves_world_untouched Scenario.windows Scenario.no_bundle).
  reflexivity.
Defined.

(** C10. When something already has the destination's name, the routine
    does not write: past the existence test it issues no call on the
    destination, the entry is left as it was, and the path is still returned
    and published in [CURL_CA_BUNDLE].  So where the bytes already there
    differ from the source bundle's, the returned path names the differing
    content. *)
Theorem existing_destination_is_reused_unchecked
  (h : host) (w : world) (src_path : string) (data : list byte)
  (fs1 : gmap path node) (n : node) :
  truthy (environ w !! "CURL_CA_BUNDLE") = false ->
  Str.startswith "win" (sys_platform h) = true ->
  certifi h = ImportOk (WhereReturns src_path) ->
  _is_ascii src_path = false ->
  files w !! Pathlib.Path src_path = Some (File data) ->
  Fs.mkdir_parents (length (parts (dest_dir_of h))) (files w) (dest_dir_of h)
    = (Return tt, fs1) ->
  files w !! dest_of h data = Some n ->
  exists w' : world,
    ensure_curl_cffi_ca_bundle h w = (Return (Some (Pathlib.str (dest_of h data))), w') /\
    calls w' = calls w ++ [CallExists (Pathlib.Path src_path); CallMkdir (dest_dir_of h);
                           CallReadBytes (Pathlib.Path src_path);
                           CallExists (dest_of h data)] /\
    files w' !! dest_of h data = Some n /\
    environ w' !! "CURL_CA_BUNDLE" = Some (Pathlib.str (dest_of h data)) /\
    (n <> File data -> files w' !! dest_of h data <> Some (File data)).
Proof.
  intros Hov Hpl Hc Ha Hs Hm Hd.
  assert (Hd1 : fs1 !! dest_of h data = Some n).
  { eapply lookup_weaken; [exact Hd|]. eapply mkdir_parents_mono, Hm. }
  eexists. split; [exact (relocation_run h w src_path data fs1 Hov Hpl Hc Ha Hs Hm)|].
  cbn [environ files calls]. rewrite Hd1.
  split; [reflexivity|]. split; [exact Hd1|]. split.
  - destruct (environ w !! "SSL_CERT_FILE").
    + apply lookup_insert_eq.
    + rewrite lookup_insert_ne by discriminate. apply lookup_insert_eq.
  - intros Hn. rewrite Hd1. congruence.
Qed.

Lemma existing_destination_is_reused_unchecked_witness :
  truthy (environ Scenario.stale !! "CURL_CA_BUNDLE") = false /\
  Str.startswith "win" (sys_platform Scenario.windows) = true /\
  certifi Scenario.windows = ImportOk (WhereReturns Scenario.src_path) /\
  _is_ascii Scenario.src_path = false /\
  files Scenario.stale !! Pathlib.Path Scenario.src_path = Some (File Scenario.bundle) /\
  Fs.mkdir_parents (length (parts (dest_dir_of Scenario.windows)))
    (files Scenario.stale) (dest_dir_of Scenario.windows)
  = (Return tt, Scenario.disk_stale) /\
  files Scenario.stale !! dest_of Scenario.windows Scenario.bundle
  = Some (File Scenario.other_bytes) /\
  exists w' : world,
    ensure_curl_cffi_ca_bundle Scenario.windows Scenario.stale =
    (Return (Some (Pathlib.str (dest_of Scenario.windows Scenario.bundle))), w') /\
    calls w' = calls Scenario.stale ++
               [CallExists (Pathlib.Path Scenario.src_path);
                CallMkdir (dest_dir_of Scenario.windows);
                CallReadBytes (Pathlib.Path Scenario.src_path);
                CallExists (dest_of Scenario.windows Scenario.bundle)] /\
    files w' !! dest_of Scenario.windows Scenario.bundle
    = Some (File Scenario.other_bytes) /\
    environ w' !! "CURL_CA_BUNDLE"
    = Some (Pathlib.str (dest_of Scenario.windows Scenario.bundle)) /\
    (File Scenario.other_bytes <> File Scenario.bundle ->
     files w' !! dest_of Scenario.windows Scenario.bundle <> Some (File Scenario.bundle)).
Proof.
  repeat (split; [reflexivity|]).
  apply (existing_destination_is_reused_unchecked Scenario.windows Scenario.stale
           Scenario.src_path Scenario.bundle Scenario.disk_stale
           (File Scenario.other_bytes)); reflexivity.
Defined.

(** The stale file of the scenario does differ from the bundle. *)
Example stale_differs : File Scenario.other_bytes <> File Scenario.bundle.
Proof. discriminate. Qed.



(** The scenario of the specification: the bundle of the scenario goes to
    [cacert-ddddb6cbd348.pem] under the temp directory with its bytes, and
    [CURL_CA_BUNDLE] names it afterwards. *)
Example relocation_scenario :
  let d := "C:\Temp\sora2api\certs\cacert-ddddb6cbd348.pem" in
  let w' := snd (ensure_curl_cffi_ca_bundle Scenario.windows Scenario.fresh) in
  fst (ensure_curl_cffi_ca_bundle Scenario.windows Scenario.fresh) = Return (Some d) /\
  files w' !! Pathlib.Path d = Some (File Scenario.bundle) /\
  environ w' !! "CURL_CA_BUNDLE" = Some d /\
  environ w' !! "SSL_CERT_FILE" = Some d /\
  writes (calls w') = [(Pathlib.Path d, Scenario.bundle)].
Proof. vm_compute. repeat split; reflexivity. Qed.

(** C3, at an input where it fails.  When the temp directory has a
    non-ASCII name the routine succeeds and the path it returns and
    publishes is not ASCII-only, against the comment at the copy
    ([# Copy to an ASCII-only temp directory]). *)
Theorem non_ascii_temp_dir_gives_non_ascii_destination :
  let d := "C:\Users\用户\AppData\Local\Temp\sora2api\certs\cacert-ddddb6cbd348.pem" in
  let w' := snd (ensure_curl_cffi_ca_bundle Scenario.windows_cn_temp Scenario.fresh) in
  fst (ensure_curl_cffi_ca_bundle Scenario.windows_cn_temp Scenario.fresh)
    = Return (Some d) /\
  environ w' !! "CURL_CA_BUNDLE" = Some d /\
  _is_ascii d = false.
Proof. vm_compute. repeat split; reflexivity. Qed.

(** * Further properties of the routine *)

(** ** What [mkdir] can create *)

Lemma removelast_prefix {A} (l : list A) : removelast l `prefix_of` l.
Proof.
  destruct l as [|x l]; [reflexivity|].
  exists [List.last (x :: l) x]. apply app_removelast_last. discriminate.
Qed.

Lemma ancestor_or_self_refl p : ancestor_or_self p p.
Proof. split; reflexivity. Qed.

Lemma ancestor_or_self_parent k p :
  ancestor_or_self k (Pathlib.parent p) -> ancestor_or_self k p.
Proof.
  intros [Ha Hp]. split; [exact Ha|].
  etrans; [exact Hp|]. apply removelast_prefix.
Qed.

Lemma os_mkdir_new fs p r fs' k :
  Fs.os_mkdir fs p = (r, fs') -> fs !! k = None -> is_Some (fs' !! k) ->
  k = p /\ fs' !! k = Some Dir.
Proof.
  unfold Fs.os_mkdir. intros H Hk [x Hx].
  repeat case_match; simplify_eq.
  destruct (decide (p = k)) as [->|Hne].
  - rewrite lookup_insert_eq. split; reflexivity.
  - rewrite lookup_insert_ne in Hx by exact Hne. congruence.
Qed.

Lemma mkdir_leaf_new b fs p r fs' k :
  Fs.mkdir_leaf b fs p = (r, fs') -> fs !! k = None -> is_Some (fs' !! k) ->
  k = p /\ fs' !! k = Some Dir.
Proof.
  unfold Fs.mkdir_leaf. intros H Hk Hx.
  destruct (Fs.os_mkdir fs p) as [r0 fs0] eqn:E.
  assert (fs0 = fs') as -> by (repeat case_match; simplify_eq; reflexivity).
  eapply os_mkdir_new; eauto.
Qed.

(** Every entry [mkdir] adds is a directory, at the path or above it. *)
Lemma mkdir_parents_new n fs p r fs' k :
  Fs.mkdir_parents n fs p = (r, fs') -> fs !! k = None -> is_Some (fs' !! k) ->
  ancestor_or_self k p /\ fs' !! k = Some Dir.
Proof.
  revert fs p r fs'. induction n as [|n IH]; intros fs p r fs' H Hk Hx.
  - simpl in H. destruct (Fs.os_mkdir fs p) as [r0 fs0] eqn:E.
    assert (fs0 = fs') as -> by (repeat case_match; simplify_eq; reflexivity).
    destruct (os_mkdir_new _ _ _ _ _ E Hk Hx) as [-> Hd].
    split; [apply ancestor_or_self_refl | exact Hd].
  - rewrite mkdir_parents_S in H.
    destruct (Fs.os_mkdir fs p) as [r0 fs0] eqn:E.
    destruct (fs0 !! k) as [x0|] eqn:Hk0.
    { destruct (os_mkdir_new _ _ _ _ _ E Hk (mk_is_Some _ _ Hk0)) as [-> Hd].
      unfold Fs.os_mkdir in E. repeat case_match; simplify_eq.
      split; [apply ancestor_or_self_refl | apply lookup_insert_eq]. }
    destruct r0 as [u|e]; [simplify_eq; destruct Hx; congruence|].
    destruct (Fs.mkdir_parents n fs0 (Pathlib.parent p)) as [r1 fs1] eqn:E1.
    destruct e; try (destruct (Fs.is_dir fs0 p); simplify_eq; destruct Hx; congruence).
    destruct (fs1 !! k) as [x1|] eqn:Hk1.
    + destruct (IH _ _ _ _ E1 Hk0 (mk_is_Some _ _ Hk1)) as [Hanc Hd].
      split; [apply ancestor_or_self_parent, Hanc|].
      destruct r1 as [u|e1].
      * apply mkdir_leaf_mono in H. eapply lookup_weaken; [|exact H]. congruence.
      * simplify_eq. congruence.
    + destruct r1 as [u|e1]; [|simplify_eq; destruct Hx; congruence].
      destruct (mkdir_leaf_new _ _ _ _ _ _ H Hk1 Hx) as [-> Hd].
      split; [apply ancestor_or_self_refl | exact Hd].
Qed.

(** ** Every run, case by case *)

(** The cases of a run: the override, the platform, then the provider, the
    source path, the source entry and the outcome of [mkdir]. *)
Ltac ensure_cases h w Hrun :=
  let Hov := fresh "Hov" in
  let Hpl := fresh "Hpl" in
  destruct (truthy (environ w !! "CURL_CA_BUNDLE")) eqn:Hov;
  [ let v := fresh "v" in
    let Hv := fresh "Hv" in
    let Hne := fresh "Hne" in
    apply truthy_true in Hov as (v & Hv & Hne);
    rewrite (override_run h w v Hv Hne) in Hrun
  | destruct (Str.startswith "win" (sys_platform h)) eqn:Hpl;
    [ rewrite (guards_passed h w Hov Hpl) in Hrun;
      let e := fresh "e" in
      let src_path := fresh "src_path" in
      let data := fresh "data" in
      let fs1 := fresh "fs1" in
      let Hc := fresh "Hc" in
      let He := fresh "He" in
      let Ha := fresh "Ha" in
      let Hs := fresh "Hs" in
      let Hm := fresh "Hm" in
      destruct (certifi h) as [e|[src_path|e]] eqn:Hc;
      [ destruct (isinstance_Exception e) eqn:He
      | destruct (_is_ascii src_path) eqn:Ha;
        [ | destruct (files w !! Pathlib.Path src_path) as [[data|]|] eqn:Hs;
            [ destruct (Fs.mkdir_parents (length (parts (dest_dir_of h))) (files w)
                          (dest_dir_of h)) as [[[]|e] fs1] eqn:Hm
            | destruct (Fs.mkdir_parents (length (parts (dest_dir_of h))) (files w)
                          (dest_dir_of h)) as [[[]|e] fs1] eqn:Hm
            | ] ]
      | ]
    | rewrite (platform_run h w Hov Hpl) in Hrun ] ];
  cbv zeta in Hrun.

Lemma writes_app (a b : list fs_call) : writes (a ++ b) = writes a ++ writes b.
Proof. unfold writes. apply flat_map_app. Qed.

Lemma dest_not_above_dest_dir h data : ~ ancestor_or_self (dest_of h data) (dest_dir_of h).
Proof.
  intros [_ Hp]. apply prefix_length in Hp.
  rewrite dest_shape, dest_dir_shape in Hp. cbn [parts] in Hp.
  rewrite !length_app in Hp. simpl in Hp. lia.
Qed.

(** X1. The routine never removes or replaces a filesystem entry: whatever
    was on disk before the call is there, unchanged, after it, however the
    call ends. *)
Theorem existing_entries_are_kept (h : host) (w : world) :
  files w ⊆ files (snd (ensure_curl_cffi_ca_bundle h w)).
Proof.
  destruct (ensure_curl_cffi_ca_bundle h w) as [r w'] eqn:Hrun. cbn [snd].
  ensure_cases h w Hrun; simplify_eq; cbn [files]; try reflexivity;
    try (eapply mkdir_parents_mono; eassumption).
  pose proof (mkdir_parents_mono _ _ _ _ _ Hm) as Hsub.
  destruct (fs1 !! dest_of h data) eqn:Hd; [exact Hsub|].
  etrans; [exact Hsub|]. apply insert_subseteq, Hd.
Qed.

(** X2. Whatever the routine adds to the disk is on the destination's path:
    a directory at or above [<temp>\sora2api\certs], or an entry under the
    destination file's own name, the one made from the digest of the source
    file's bytes. *)
Theorem created_entries_are_on_the_destination_path (h : host) (w : world) (k : path) :
  files w !! k = None ->
  is_Some (files (snd (ensure_curl_cffi_ca_bundle h w)) !! k) ->
  (ancestor_or_self k (dest_dir_of h) /\
   files (snd (ensure_curl_cffi_ca_bundle h w)) !! k = Some Dir) \/
  (exists src_path data,
     certifi h = ImportOk (WhereReturns src_path) /\
     files w !! Pathlib.Path src_path = Some (File data) /\
     k = dest_of h data).
Proof.
  destruct (ensure_curl_cffi_ca_bundle h w) as [r w'] eqn:Hrun. cbn [snd].
  intros Hk Hx.
  ensure_cases h w Hrun; simplify_eq; cbn [files] in *;
    try (destruct Hx; congruence);
    try (left; eapply mkdir_parents_new; eassumption).
  destruct (fs1 !! k) as [x|] eqn:Hk1.
  - left. destruct (mkdir_parents_new _ _ _ _ _ _ Hm Hk (mk_is_Some _ _ Hk1)) as [Hanc Hd].
    split; [exact Hanc|].
    destruct (fs1 !! dest_of h data) eqn:Hdest; [exact Hd|].
    rewrite lookup_insert_ne by congruence. exact Hd.
  - right. exists src_path, data.
    destruct (fs1 !! dest_of h data) eqn:Hdest; [destruct Hx; congruence|].
    destruct (decide (dest_of h data = k)) as [<-|Hne].
    + auto.
    + rewrite lookup_insert_ne in Hx by exact Hne. destruct Hx; congruence.
Qed.

Lemma created_entries_are_on_the_destination_path_witness :
  files Scenario.fresh !! dest_of Scenario.windows Scenario.bundle = None /\
  is_Some (files (snd (ensure_curl_cffi_ca_bundle Scenario.windows Scenario.fresh))
             !! dest_of Scenario.windows Scenario.bundle) /\
  ((ancestor_or_self (dest_of Scenario.windows Scenario.bundle)
      (dest_dir_of Scenario.windows) /\
    files (snd (ensure_curl_cffi_ca_bundle Scenario.windows Scenario.fresh))
      !! dest_of Scenario.windows Scenario.bundle = Some Dir) \/
   (exists src_path data,
      certifi Scenario.windows = ImportOk (WhereReturns src_path) /\
      files Scenario.fresh !! Pathlib.Path src_path = Some (File data) /\
      dest_of Scenario.windows Scenario.bundle = dest_of Scenario.windows data)).
Proof.
  split; [vm_compute; reflexivity|]. split; [vm_compute; eexists; reflexivity|].
  apply (created_entries_are_on_the_destination_path Scenario.windows Scenario.fresh
           (dest_of Scenario.windows Scenario.bundle));
    [vm_compute; reflexivity | vm_compute; eexists; reflexivity].
Defined.

(** X3. The routine touches two variables at most.  Every variable other
    than [CURL_CA_BUNDLE] and [SSL_CERT_FILE] keeps its state; a
    [SSL_CERT_FILE] that is set keeps its value, the empty string included;
    and when [CURL_CA_BUNDLE] holds a non-empty value the whole environment
    is left as it was. *)
Theorem other_variables_are_untouched (h : host) (w : world) :
  (forall k, k <> "CURL_CA_BUNDLE" -> k <> "SSL_CERT_FILE" ->
             environ (snd (ensure_curl_cffi_ca_bundle h w)) !! k = environ w !! k) /\
  (forall v, environ w !! "SSL_CERT_FILE" = Some v ->
             environ (snd (ensure_curl_cffi_ca_bundle h w)) !! "SSL_CERT_FILE" = Some v) /\
  (truthy (environ w !! "CURL_CA_BUNDLE") = true ->
   environ (snd (ensure_curl_cffi_ca_bundle h w)) = environ w).
Proof.
  destruct (ensure_curl_cffi_ca_bundle h w) as [r w'] eqn:Hrun. cbn [snd].
  ensure_cases h w Hrun; simplify_eq; cbn [environ];
    try (split; [intros; reflexivity | split; [intros v0 Hv0; exact Hv0 | intros; reflexivity]]).
  split; [|split; [|discriminate]].
  - intros k Hk1 Hk2. destruct (environ w !! "SSL_CERT_FILE");
      rewrite ?lookup_insert_ne by congruence; reflexivity.
  - intros v0 Hv0. rewrite Hv0. rewrite lookup_insert_ne by discriminate. exact Hv0.
Qed.

(** X4. What [mkdir] raises reaches the caller as it is, at once: the call
    has then issued the existence test and the [mkdir] and nothing after
    them, so the source is not read and nothing is written, and the
    environment is unchanged. *)
Theorem mkdir_error_reaches_the_caller
  (h : host) (w : world) (src_path : string) (e : pyexc) :
  truthy (environ w !! "CURL_CA_BUNDLE") = false ->
  Str.startswith "win" (sys_platform h) = true ->
  certifi h = ImportOk (WhereReturns src_path) ->
  _is_ascii src_path = false ->
  is_Some (files w !! Pathlib.Path src_path) ->
  fst (Fs.mkdir_parents (length (parts (dest_dir_of h))) (files w) (dest_dir_of h))
    = Raise e ->
  fst (ensure_curl_cffi_ca_bundle h w) = Raise e /\
  environ (snd (ensure_curl_cffi_ca_bundle h w)) = environ w /\
  calls (snd (ensure_curl_cffi_ca_bundle h w))
    = calls w ++ [CallExists (Pathlib.Path src_path); CallMkdir (dest_dir_of h)].
Proof.
  intros Hov Hpl Hc Ha [n Hs] Hm.
  rewrite (guards_passed h w Hov Hpl), Hc, Ha, Hs.
  destruct (Fs.mkdir_parents _ _ _) as [r fs1]. cbn [fst] in Hm. subst r.
  destruct n; cbn [fst snd environ calls]; repeat split; reflexivity.
Qed.

Lemma mkdir_error_reaches_the_caller_witness :
  truthy (environ Edge.blocked !! "CURL_CA_BUNDLE") = false /\
  Str.startswith "win" (sys_platform Scenario.windows) = true /\
  certifi Scenario.windows = ImportOk (WhereReturns Scenario.src_path) /\
  _is_ascii Scenario.src_path = false /\
  is_Some (files Edge.blocked !! Pathlib.Path Scenario.src_path) /\
  fst (Fs.mkdir_parents (length (parts (dest_dir_of Scenario.windows)))
         (files Edge.blocked) (dest_dir_of Scenario.windows)) = Raise FileExistsError /\
  fst (ensure_curl_cffi_ca_bundle Scenario.windows Edge.blocked) = Raise FileExistsError /\
  environ (snd (ensure_curl_cffi_ca_bundle Scenario.windows Edge.blocked))
    = environ Edge.blocked /\
  calls (snd (ensure_curl_cffi_ca_bundle Scenario.windows Edge.blocked))
    = calls Edge.blocked ++
      [CallExists (Pathlib.Path Scenario.src_path); CallMkdir (dest_dir_of Scenario.windows)].
Proof.
  do 4 (split; [vm_compute; reflexivity|]).
  split; [vm_compute; eexists; reflexivity|].
  split; [vm_compute; reflexivity|].
  apply (mkdir_error_reaches_the_caller Scenario.windows Edge.blocked Scenario.src_path
           FileExistsError);
    [vm_compute; reflexivity | vm_compute; reflexivity | vm_compute; reflexivity
    | vm_compute; reflexivity | vm_compute; eexists; reflexivity | vm_compute; reflexivity].
Defined.

(** X5. What [certifi.where()] raises reaches the caller as it is, whatever
    its class: the call is outside the guarded import.  The world is as it
    was. *)
Theorem where_error_reaches_the_caller (h : host) (w : world) (e : pyexc) :
  truthy (environ w !! "CURL_CA_BUNDLE") = false ->
  Str.startswith "win" (sys_platform h) = true ->
  certifi h = ImportOk (WhereRaises e) ->
  ensure_curl_cffi_ca_bundle h w = (Raise e, w).
Proof.
  intros Hov Hpl Hc. rewrite (guards_passed h w Hov Hpl), Hc. reflexivity.
Qed.

Lemma where_error_reaches_the_caller_witness :
  truthy (environ Scenario.fresh !! "CURL_CA_BUNDLE") = false /\
  Str.startswith "win" (sys_platform Scenario.windows_where_fails) = true /\
  certifi Scenario.windows_where_fails = ImportOk (WhereRaises RuntimeError) /\
  ensure_curl_cffi_ca_bundle Scenario.windows_where_fails Scenario.fresh
    = (Raise RuntimeError, Scenario.fresh).
Proof.
  do 3 (split; [reflexivity|]).
  apply (where_error_reaches_the_caller Scenario.windows_where_fails Scenario.fresh
           RuntimeError); reflexivity.
Defined.

Lemma fst_Return_tt {A} (p : outcome unit * A) : fst p = Return tt -> p = (Return tt, snd p).
Proof. destruct p as [r a]. simpl. intros ->. reflexivity. Qed.

(** X6. When nothing has the destination's name, a relocation leaves at the
    destination a file with exactly the bytes of the source file, written
    by the one write of the call, and the source file is as it was. *)
Theorem fresh_destination_holds_source_bytes
  (h : host) (w : world) (src_path : string) (data : list byte) :
  truthy (environ w !! "CURL_CA_BUNDLE") = false ->
  Str.startswith "win" (sys_platform h) = true ->
  certifi h = ImportOk (WhereReturns src_path) ->
  _is_ascii src_path = false ->
  files w !! Pathlib.Path src_path = Some (File data) ->
  fst (Fs.mkdir_parents (length (parts (dest_dir_of h))) (files w) (dest_dir_of h))
    = Return tt ->
  files w !! dest_of h data = None ->
  fst (ensure_curl_cffi_ca_bundle h w) = Return (Some (Pathlib.str (dest_of h data))) /\
  files (snd (ensure_curl_cffi_ca_bundle h w)) !! dest_of h data = Some (File data) /\
  files (snd (ensure_curl_cffi_ca_bundle h w)) !! Pathlib.Path src_path = Some (File data) /\
  writes (calls (snd (ensure_curl_cffi_ca_bundle h w)))
    = writes (calls w) ++ [(dest_of h data, data)].
Proof.
  intros Hov Hpl Hc Ha Hs Hm Hd. apply fst_Return_tt in Hm.
  set (fs1 := snd (Fs.mkdir_parents _ _ _)) in Hm.
  assert (Hd1 : fs1 !! dest_of h data = None).
  { destruct (fs1 !! dest_of h data) as [x|] eqn:Hx; [|reflexivity].
    destruct (mkdir_parents_new _ _ _ _ _ _ Hm Hd (mk_is_Some _ _ Hx)) as [Hanc _].
    destruct (dest_not_above_dest_dir _ _ Hanc). }
  rewrite (relocation_run h w src_path data fs1 Hov Hpl Hc Ha Hs Hm).
  cbn [fst snd files calls]. rewrite Hd1.
  split; [reflexivity|]. split; [apply lookup_insert_eq|]. split.
  - rewrite lookup_insert_ne by congruence.
    eapply lookup_weaken; [exact Hs|]. eapply mkdir_parents_mono, Hm.
  - rewrite writes_app. reflexivity.
Qed.

Lemma fresh_destination_holds_source_bytes_witness :
  truthy (environ Scenario.fresh !! "CURL_CA_BUNDLE") = false /\
  Str.startswith "win" (sys_platform Scenario.windows) = true /\
  certifi Scenario.windows = ImportOk (WhereReturns Scenario.src_path) /\
  _is_ascii Scenario.src_path = false /\
  files Scenario.fresh !! Pathlib.Path Scenario.src_path = Some (File Scenario.bundle) /\
  fst (Fs.mkdir_parents (length (parts (dest_dir_of Scenario.windows)))
         (files Scenario.fresh) (dest_dir_of Scenario.windows)) = Return tt /\
  files Scenario.fresh !! dest_of Scenario.windows Scenario.bundle = None /\
  fst (ensure_curl_cffi_ca_bundle Scenario.windows Scenario.fresh)
    = Return (Some (Pathlib.str (dest_of Scenario.windows Scenario.bundle))) /\
  files (snd (ensure_curl_cffi_ca_bundle Scenario.windows Scenario.fresh))
    !! dest_of Scenario.windows Scenario.bundle = Some (File Scenario.bundle) /\
  files (snd (ensure_curl_cffi_ca_bundle Scenario.windows Scenario.fresh))
    !! Pathlib.Path Scenario.src_path = Some (File Scenario.bundle) /\
  writes (calls (snd (ensure_curl_cffi_ca_bundle Scenario.windows Scenario.fresh)))
    = writes (calls Scenario.fresh) ++
      [(dest_of Scenario.windows Scenario.bundle, Scenario.bundle)].
Proof.
  do 7 (split; [vm_compute; reflexivity|]).
  apply (fresh_destination_holds_source_bytes Scenario.windows Scenario.fresh
           Scenario.src_path Scenario.bundle); vm_compute; reflexivity.
Defined.

(** X8. A path the routine returns is never the empty string, and after the
    call [CURL_CA_BUNDLE] holds it: the result is true in a test exactly
    when a bundle path is in force, and a later call stops at the
    override. *)
Theorem returned_path_is_in_force (h : host) (w : world) (d : string) :
  fst (ensure_curl_cffi_ca_bundle h w) = Return (Some d) ->
  d <> "" /\
  environ (snd (ensure_curl_cffi_ca_bundle h w)) !! "CURL_CA_BUNDLE" = Some d /\
  truthy (environ (snd (ensure_curl_cffi_ca_bundle h w)) !! "CURL_CA_BUNDLE") = true.
Proof.
  destruct (ensure_curl_cffi_ca_bundle h w) as [r w'] eqn:Hrun. cbn [fst snd].
  intros ->.
  assert (Hgoal : d <> "" /\ environ w' !! "CURL_CA_BUNDLE" = Some d).
  { ensure_cases h w Hrun; simplify_eq; cbn [environ].
    - split; assumption.
    - split; [apply dest_str_nonempty|].
      destruct (environ w !! "SSL_CERT_FILE").
      + apply lookup_insert_eq.
      + rewrite lookup_insert_ne by discriminate. apply lookup_insert_eq. }
  destruct Hgoal as [Hne Hd]. split; [exact Hne|]. split; [exact Hd|].
  rewrite Hd. apply truthy_Some, Hne.
Qed.

Lemma returned_path_is_in_force_witness :
  fst (ensure_curl_cffi_ca_bundle Scenario.windows Scenario.fresh)
    = Return (Some "C:\Temp\sora2api\certs\cacert-ddddb6cbd348.pem") /\
  "C:\Temp\sora2api\certs\cacert-ddddb6cbd348.pem" <> "" /\
  environ (snd (ensure_curl_cffi_ca_bundle Scenario.windows Scenario.fresh))
    !! "CURL_CA_BUNDLE" = Some "C:\Temp\sora2api\certs\cacert-ddddb6cbd348.pem" /\
  truthy (environ (snd (ensure_curl_cffi_ca_bundle Scenario.windows Scenario.fresh))
            !! "CURL_CA_BUNDLE") = true.
Proof.
  split; [vm_compute; reflexivity|].
  apply (returned_path_is_in_force Scenario.windows Scenario.fresh
           "C:\Temp\sora2api\certs\cacert-ddddb6cbd348.pem").
  vm_compute; reflexivity.
Defined.

(** X9. The path a relocation returns is ASCII-only exactly when the temp
    directory's path is: the routine adds ASCII components only, and does
    nothing about a temp directory that is not ASCII itself. *)
Theorem relocated_path_is_ascii_iff_temp_dir_is
  (h : host) (w : world) (src_path : string) (data : list byte) :
  truthy (environ w !! "CURL_CA_BUNDLE") = false ->
  Str.startswith "win" (sys_platform h) = true ->
  certifi h = ImportOk (WhereReturns src_path) ->
  _is_ascii src_path = false ->
  files w !! Pathlib.Path src_path = Some (File data) ->
  fst (Fs.mkdir_parents (length (parts (dest_dir_of h))) (files w) (dest_dir_of h))
    = Return tt ->
  exists d,
    fst (ensure_curl_cffi_ca_bundle h w) = Return (Some d) /\
    _is_ascii d = _is_ascii (Pathlib.str (Pathlib.Path (gettempdir h))).
Proof.
  intros Hov Hpl Hc Ha Hs Hm. apply fst_Return_tt in Hm.
  rewrite (relocation_run h w src_path data _ Hov Hpl Hc Ha Hs Hm).
  eexists. split; [reflexivity|]. apply dest_ascii_iff_tempdir.
Qed.

Lemma relocated_path_is_ascii_iff_temp_dir_is_witness :
  truthy (environ Scenario.fresh !! "CURL_CA_BUNDLE") = false /\
  Str.startswith "win" (sys_platform Scenario.windows) = true /\
  certifi Scenario.windows = ImportOk (WhereReturns Scenario.src_path) /\
  _is_ascii Scenario.src_path = false /\
  files Scenario.fresh !! Pathlib.Path Scenario.src_path = Some (File Scenario.bundle) /\
  fst (Fs.mkdir_parents (length (parts (dest_dir_of Scenario.windows)))
         (files Scenario.fresh) (dest_dir_of Scenario.windows)) = Return tt /\
  exists d,
    fst (ensure_curl_cffi_ca_bundle Scenario.windows Scenario.fresh) = Return (Some d) /\
    _is_ascii d = _is_ascii (Pathlib.str (Pathlib.Path (gettempdir Scenario.windows))).
Proof.
  do 6 (split; [vm_compute; reflexivity|]).
  apply (relocated_path_is_ascii_iff_temp_dir_is Scenario.windows Scenario.fresh
           Scenario.src_path Scenario.bundle); vm_compute; reflexivity.
Defined.

(** X10. Every call, however it ends, only appends to the log, at most five
    filesystem calls, of which at most one is a write. *)
Theorem calls_of_a_run (h : host) (w : world) :
  exists new : list fs_call,
    calls (snd (ensure_curl_cffi_ca_bundle h w)) = calls w ++ new /\
    length new <= 5 /\
    length (writes new) <= 1.
Proof.
  destruct (ensure_curl_cffi_ca_bundle h w) as [r w'] eqn:Hrun. cbn [fst snd].
  ensure_cases h w Hrun; simplify_eq; cbn [calls];
    try (exists []; rewrite app_nil_r; simpl; repeat split; lia);
    try (eexists; split; [reflexivity|]; simpl; repeat split; lia).
  eexists. split; [reflexivity|].
  destruct (fs1 !! dest_of h data); simpl; repeat split; lia.
Qed.

(** X11. [_is_ascii] goes through concatenation: a string put together from
    two is ASCII-only exactly when both are. *)
Theorem is_ascii_app (a b : string) :
  _is_ascii (a ++ b)%string = _is_ascii a && _is_ascii b.
Proof. apply Str_all_app. Qed.

(** X13. An exception that does not derive from [Exception], such as a
    keyboard interrupt during [import certifi], is not absorbed by the
    guard: it reaches the caller, and the world is as it was. *)
Theorem interrupted_import_propagates (h : host) (w : world) (e : pyexc) :
  truthy (environ w !! "CURL_CA_BUNDLE") = false ->
  Str.startswith "win" (sys_platform h) = true ->
  certifi h = ImportRaises e ->
  isinstance_Exception e = false ->
  ensure_curl_cffi_ca_bundle h w = (Raise e, w).
Proof.
  intros Hov Hpl Hc He. rewrite (guards_passed h w Hov Hpl), Hc, He. reflexivity.
Qed.

Lemma interrupted_import_propagates_witness :
  truthy (environ Scenario.fresh !! "CURL_CA_BUNDLE") = false /\
  Str.startswith "win" (sys_platform Edge.windows_interrupted) = true /\
  certifi Edge.windows_interrupted = ImportRaises KeyboardInterrupt /\
  isinstance_Exception KeyboardInterrupt = false /\
  ensure_curl_cffi_ca_bundle Edge.windows_interrupted Scenario.fresh
    = (Raise KeyboardInterrupt, Scenario.fresh).
Proof.
  do 4 (split; [reflexivity|]).
  apply (interrupted_import_propagates Edge.windows_interrupted Scenario.fresh
           KeyboardInterrupt); reflexivity.
Defined.

(** X14. The existence test does not tell a file from a directory.  When the
    source path names a directory the routine goes on, makes the
    destination directory, and then [read_bytes] raises [PermissionError];
    the environment is unchanged and nothing is written. *)
Theorem directory_source_raises_after_mkdir (h : host) (w : world) (src_path : string) :
  truthy (environ w !! "CURL_CA_BUNDLE") = false ->
  Str.startswith "win" (sys_platform h) = true ->
  certifi h = ImportOk (WhereReturns src_path) ->
  _is_ascii src_path = false ->
  files w !! Pathlib.Path src_path = Some Dir ->
  fst (Fs.mkdir_parents (length (parts (dest_dir_of h))) (files w) (dest_dir_of h))
    = Return tt ->
  fst (ensure_curl_cffi_ca_bundle h w) = Raise PermissionError /\
  files (snd (ensure_curl_cffi_ca_bundle h w)) !! dest_dir_of h = Some Dir /\
  environ (snd (ensure_curl_cffi_ca_bundle h w)) = environ w /\
  calls (snd (ensure_curl_cffi_ca_bundle h w))
    = calls w ++ [CallExists (Pathlib.Path src_path); CallMkdir (dest_dir_of h);
                  CallReadBytes (Pathlib.Path src_path)].
Proof.
  intros Hov Hpl Hc Ha Hs Hm. apply fst_Return_tt in Hm.
  rewrite (guards_passed h w Hov Hpl), Hc, Ha, Hs, Hm. cbn [fst snd files environ calls].
  split; [reflexivity|]. split; [eapply mkdir_parents_dir, Hm|]. split; reflexivity.
Qed.

Lemma directory_source_raises_after_mkdir_witness :
  truthy (environ Edge.dir_src !! "CURL_CA_BUNDLE") = false /\
  Str.startswith "win" (sys_platform Scenario.windows) = true /\
  certifi Scenario.windows = ImportOk (WhereReturns Scenario.src_path) /\
  _is_ascii Scenario.src_path = false /\
  files Edge.dir_src !! Pathlib.Path Scenario.src_path = Some Dir /\
  fst (Fs.mkdir_parents (length (parts (dest_dir_of Scenario.windows)))
         (files Edge.dir_src) (dest_dir_of Scenario.windows)) = Return tt /\
  fst (ensure_curl_cffi_ca_bundle Scenario.windows Edge.dir_src) = Raise PermissionError /\
  files (snd (ensure_curl_cffi_ca_bundle Scenario.windows Edge.dir_src))
    !! dest_dir_of Scenario.windows = Some Dir /\
  environ (snd (ensure_curl_cffi_ca_bundle Scenario.windows Edge.dir_src))
    = environ Edge.dir_src /\
  calls (snd (ensure_curl_cffi_ca_bundle Scenario.windows Edge.dir_src))
    = calls Edge.dir_src ++
      [CallExists (Pathlib.Path Scenario.src_path); CallMkdir (dest_dir_of Scenario.windows);
       CallReadBytes (Pathlib.Path Scenario.src_path)].
Proof.
  do 6 (split; [vm_compute; reflexivity|]).
  apply (directory_source_raises_after_mkdir Scenario.windows Edge.dir_src
           Scenario.src_path); vm_compute; reflexivity.
Defined.

(** X15. A regular file in the way stops the routine.  When
    [<temp>\sora2api], or [<temp>\sora2api\certs] itself, is a file, [mkdir]
    raises [FileExistsError] in spite of [exist_ok=True]; nothing is
    created and the environment is unchanged. *)
Theorem file_in_the_way_raises (h : host) (w : world) (src_path : string) (x : list byte) :
  truthy (environ w !! "CURL_CA_BUNDLE") = false ->
  Str.startswith "win" (sys_platform h) = true ->
  certifi h = ImportOk (WhereReturns src_path) ->
  _is_ascii src_path = false ->
  is_Some (files w !! Pathlib.Path src_path) ->
  files w !! dest_dir_of h = Some (File x) \/
  (files w !! dest_dir_of h = None /\
   files w !! (Pathlib.Path (gettempdir h) // "sora2api") = Some (File x)) ->
  fst (ensure_curl_cffi_ca_bundle h w) = Raise FileExistsError /\
  files (snd (ensure_curl_cffi_ca_bundle h w)) = files w /\
  environ (snd (ensure_curl_cffi_ca_bundle h w)) = environ w.
Proof.
  intros Hov Hpl Hc Ha [n Hs] Hblock.
  assert (Hm : Fs.mkdir_parents (length (parts (dest_dir_of h))) (files w) (dest_dir_of h)
               = (Raise FileExistsError, files w)).
  { assert (Hlen : length (parts (dest_dir_of h))
                   = S (S (length (parts (Pathlib.Path (gettempdir h)))))).
    { rewrite dest_dir_shape. cbn [parts]. rewrite length_app. simpl. lia. }
    assert (HpD : Pathlib.parent (dest_dir_of h) = Pathlib.Path (gettempdir h) // "sora2api")
      by (apply parent_joinpath_single; reflexivity).
    rewrite Hlen, mkdir_parents_S. unfold Fs.os_mkdir at 1.
    destruct Hblock as [Hd | [Hd HA]]; rewrite Hd.
    - unfold Fs.is_dir. rewrite Hd. reflexivity.
    - rewrite HpD, HA, mkdir_parents_S. unfold Fs.os_mkdir, Fs.is_dir.
      rewrite !HA. reflexivity. }
  rewrite (guards_passed h w Hov Hpl), Hc, Ha, Hs, Hm.
  destruct n; cbn [fst snd files environ]; repeat split; reflexivity.
Qed.

Lemma file_in_the_way_raises_witness :
  truthy (environ Edge.blocked !! "CURL_CA_BUNDLE") = false /\
  Str.startswith "win" (sys_platform Scenario.windows) = true /\
  certifi Scenario.windows = ImportOk (WhereReturns Scenario.src_path) /\
  _is_ascii Scenario.src_path = false /\
  is_Some (files Edge.blocked !! Pathlib.Path Scenario.src_path) /\
  (files Edge.blocked !! dest_dir_of Scenario.windows = Some (File Scenario.other_bytes) \/
   (files Edge.blocked !! dest_dir_of Scenario.windows = None /\
    files Edge.blocked !! (Pathlib.Path (gettempdir Scenario.windows) // "sora2api")
      = Some (File Scenario.other_bytes))) /\
  fst (ensure_curl_cffi_ca_bundle Scenario.windows Edge.blocked) = Raise FileExistsError /\
  files (snd (ensure_curl_cffi_ca_bundle Scenario.windows Edge.blocked))
    = files Edge.blocked /\
  environ (snd (ensure_curl_cffi_ca_bundle Scenario.windows Edge.blocked))
    = environ Edge.blocked.
Proof.
  do 4 (split; [vm_compute; reflexivity|]).
  split; [vm_compute; eexists; reflexivity|].
  split; [right; split; vm_compute; reflexivity|].
  apply (file_in_the_way_raises Scenario.windows Edge.blocked Scenario.src_path
           Scenario.other_bytes);
    [vm_compute; reflexivity | vm_compute; reflexivity | vm_compute; reflexivity
    | vm_compute; reflexivity | vm_compute; eexists; reflexivity
    | right; split; vm_compute; reflexivity].
Defined.

(** X7. After a call that returned, with a path or with [None], calling
    the routine again in the same process returns the same and leaves the
    environment and the disk as the first call left them. *)
Theorem second_call_repeats_a_returned_first
  (h : host) (w : world) (r : option string) :
  fst (ensure_curl_cffi_ca_bundle h w) = Return r ->
  fst (ensure_curl_cffi_ca_bundle h (snd (ensure_curl_cffi_ca_bundle h w))) = Return r /\
  environ (snd (ensure_curl_cffi_ca_bundle h (snd (ensure_curl_cffi_ca_bundle h w))))
    = environ (snd (ensure_curl_cffi_ca_bundle h w)) /\
  files (snd (ensure_curl_cffi_ca_bundle h (snd (ensure_curl_cffi_ca_bundle h w))))
    = files (snd (ensure_curl_cffi_ca_bundle h w)).
Proof.
  destruct (ensure_curl_cffi_ca_bundle h w) as [r1 w1] eqn:Hrun. cbn [fst snd].
  intros ->.
  ensure_cases h w Hrun; try discriminate; injection Hrun as <- <-; cbn [fst snd].
  - (* the override *)
    rewrite (override_run h w v Hv Hne). repeat split; reflexivity.
  - (* the import raised an Exception *)
    rewrite (guards_passed h w Hov Hpl), Hc, He. repeat split; reflexivity.
  - (* an ASCII source path *)
    rewrite (guards_passed h w Hov Hpl), Hc, Ha. repeat split; reflexivity.
  - (* relocation: the path is now the override *)
    match goal with |- context [ensure_curl_cffi_ca_bundle h ?w1] =>
      rewrite (override_run h w1 (Pathlib.str (dest_of h data)))
    end; [repeat split; reflexivity | | apply dest_str_nonempty].
    cbn [environ]. destruct (environ w !! "SSL_CERT_FILE").
    + apply lookup_insert_eq.
    + rewrite lookup_insert_ne by discriminate. apply lookup_insert_eq.
  - (* no source *)
    match goal with |- context [ensure_curl_cffi_ca_bundle h ?w1] =>
      rewrite (guards_passed h w1 Hov Hpl)
    end. cbn [files environ calls]. rewrite Hc, Ha, Hs. repeat split; reflexivity.
  - (* another platform *)
    rewrite (platform_run h w Hov Hpl). repeat split; reflexivity.
Qed.

Lemma second_call_repeats_a_returned_first_witness :
  fst (ensure_curl_cffi_ca_bundle Scenario.windows Scenario.fresh)
    = Return (Some "C:\Temp\sora2api\certs\cacert-ddddb6cbd348.pem") /\
  fst (ensure_curl_cffi_ca_bundle Scenario.windows
         (snd (ensure_curl_cffi_ca_bundle Scenario.windows Scenario.fresh)))
    = Return (Some "C:\Temp\sora2api\certs\cacert-ddddb6cbd348.pem") /\
  environ (snd (ensure_curl_cffi_ca_bundle Scenario.windows
                  (snd (ensure_curl_cffi_ca_bundle Scenario.windows Scenario.fresh))))
    = environ (snd (ensure_curl_cffi_ca_bundle Scenario.windows Scenario.fresh)) /\
  files (snd (ensure_curl_cffi_ca_bundle Scenario.windows
                (snd (ensure_curl_cffi_ca_bundle Scenario.windows Scenario.fresh))))
    = files (snd (ensure_curl_cffi_ca_bundle Scenario.windows Scenario.fresh)).
Proof.
  split; [vm_compute; reflexivity|].
  apply (second_call_repeats_a_returned_first Scenario.windows Scenario.fresh
           (Some "C:\Temp\sora2api\certs\cacert-ddddb6cbd348.pem")).
  vm_compute; reflexivity.
Defined.

(** X12. One character above 127 anywhere in a string makes [_is_ascii]
    answer [False], whatever comes before and after it. *)
Theorem is_ascii_rejects_any_high_character (a b : string) (c : ascii) :
  (128 <= N_of_ascii c)%N ->
  _is_ascii (a ++ String c b)%string = false.
Proof.
  intros Hc. rewrite is_ascii_app. apply andb_false_iff. right.
  unfold _is_ascii. simpl. apply andb_false_iff. left. apply N.ltb_ge, Hc.
Qed.

Lemma is_ascii_rejects_any_high_character_witness :
  (128 <= N_of_ascii (ascii_of_N 231))%N /\
  _is_ascii ("C:\Users\" ++ String (ascii_of_N 231) "\cacert.pem")%string = false.
Proof.
  split; [simpl; lia|].
  apply (is_ascii_rejects_any_high_character "C:\Users\" "\cacert.pem" (ascii_of_N 231)).
  simpl; lia.
Defined.
